(** * The fake-user generator service: [app.py] and [benchmark.py]

    A shallow embedding of the Flask handlers of [app.py] and of the timing
    loop of [benchmark.py], with the properties of the service's
    specification stated and proved over it.

    Everything outside the two files is an explicit parameter: the process
    environment, the PostgreSQL driver and the stored procedure behind it,
    the wall clock, and the interpreter builtins whose results the code
    passes on without looking at them.  A handler is a function of that
    environment and of the request; it yields its response together with
    the trace of driver calls it made. *)

From Stdlib Require Import ZArith String List Floats Lia.
From stdpp Require Import gmap strings list.

Set Warnings "-register-all".

Local Open Scope string_scope.
Local Open Scope list_scope.
Local Open Scope Z_scope.

(** ** Python values, exceptions and builtins *)

Module Py.

(** Values of the types a JSON document parses to.  A [dict] is keyed by
    [str]: that is what a JSON object and a [RealDictCursor] row are. *)
Inductive pyval : Type :=
| PNone
| PBool (b : bool)
| PInt (z : Z)
| PFloat (f : float)
| PStr (s : string)
| PList (l : list pyval)
| PDict (d : gmap string pyval).

(** [type(v).__name__] *)
Definition type_name (v : pyval) : string :=
  match v with
  | PNone => "NoneType"
  | PBool _ => "bool"
  | PInt _ => "int"
  | PFloat _ => "float"
  | PStr _ => "str"
  | PList _ => "list"
  | PDict _ => "dict"
  end.

(** Instances of [Exception].  The builtin ones keep what they were raised
    about rather than a rendered message; [LibraryError] stands for any
    exception class of a library (psycopg2, psycopg, werkzeug). *)
Inductive exn : Type :=
| KeyError (key : string)
| AttributeError (type_of_object attribute : string)
| TypeError (operation type_of_operand : string)
| ValueError (operation : string) (operand : pyval)
| OverflowError (operation : string)
| ZeroDivisionError
| LibraryError (class message : string).

(** The outcome of evaluating an expression: a value, or a raised
    exception. *)
Inductive result (A : Type) : Type :=
| OK (a : A)
| Raise (e : exn).
Arguments OK {A} a.
Arguments Raise {A} e.

Definition bind {A B} (r : result A) (k : A -> result B) : result B :=
  match r with
  | OK a => k a
  | Raise e => Raise e
  end.

(** [for x in xs: f(x)], collecting the results; the first exception ends
    the loop. *)
Fixpoint for_each {A B} (f : A -> result B) (xs : list A) : result (list B) :=
  match xs with
  | [] => OK []
  | x :: xs' =>
      bind (f x) (fun y => bind (for_each f xs') (fun ys => OK (y :: ys)))
  end.

(** The interpreter builtins the code calls and whose definition lies
    outside the repository.
    - [int_of_str s]: the integer [int(s)] returns for a [str], [None] when
      it raises [ValueError];
    - [round v n]: [round(v, n)];
    - [str e]: [str(e)] of an exception instance. *)
Record runtime : Type := {
  int_of_str : string -> option Z;
  round : pyval -> Z -> result pyval;
  str : exn -> string
}.

(** [d[k]] on a [dict]. *)
Definition getitem (d : gmap string pyval) (k : string) : result pyval :=
  match d !! k with
  | Some v => OK v
  | None => Raise (KeyError k)
  end.

(** [v.get(k, default)]: only a [dict] has the method. *)
Definition get (v : pyval) (k : string) (default : pyval) : result pyval :=
  match v with
  | PDict d =>
      OK (match d !! k with Some x => x | None => default end)
  | _ => Raise (AttributeError (type_name v) "get")
  end.

(** [int(f)] for a [float]: truncation towards zero; [nan] and the
    infinities raise. *)
Definition int_of_float (f : float) : result Z :=
  match Prim2SF f with
  | S754_zero _ => OK 0
  | S754_finite s m e =>
      let magnitude := Z.shiftl (Z.pos m) e in
      OK (if s then - magnitude else magnitude)
  | S754_infinity _ => Raise (OverflowError "int")
  | S754_nan => Raise (ValueError "int" (PFloat f))
  end.

(** [int(v)] *)
Definition int (rt : runtime) (v : pyval) : result Z :=
  match v with
  | PInt z => OK z
  | PBool b => OK (if b then 1 else 0)
  | PFloat f => int_of_float f
  | PStr s =>
      match int_of_str rt s with
      | Some z => OK z
      | None => Raise (ValueError "int" v)
      end
  | PNone | PList _ | PDict _ => Raise (TypeError "int" (type_name v))
  end.

(** The [float] nearest to an [int] (ties to even), as the conversion of
    an [int] operand of [/] computes it; too large an [int] raises. *)
Definition float_of_int (z : Z) : result float :=
  match binary_normalize prec emax z 0 false with
  | S754_infinity _ => Raise (OverflowError "float")
  | sf => OK (SF2Prim sf)
  end.

(** [n / d] with [n] an [int] and [d] a [float]. *)
Definition truediv (n : Z) (d : float) : result float :=
  bind (float_of_int n) (fun a =>
  if PrimFloat.eqb d 0%float then Raise ZeroDivisionError
  else OK (PrimFloat.div a d)).

End Py.

(** ** [app.py] *)

Module App.
Import Py.

(** The calls a handler makes on the PostgreSQL driver, in the order made. *)
Inductive event : Type :=
| Connect (dsn : string)
| Cursor
| Execute (sql : string) (args : list pyval)
| Fetchall
| CursorClose
| ConnectionClose.

(** What the handlers are run against.
    - [environ]: [os.environ];
    - [connect dsn]: whether [psycopg2.connect(dsn, ...)] returns;
    - [cursor]: whether [conn.cursor(...)] returns;
    - [execute sql args]: whether [cur.execute(sql, args)] returns;
    - [fetchall sql args]: the rows [cur.fetchall()] returns after that
      statement, each a [RealDictRow] (a [dict] from column name to
      value);
    - [cursor_close], [connection_close]: whether the [close()] calls
      return;
    - [now_isoformat]: [datetime.now().isoformat()] at the time of the
      request;
    - [rt]: the interpreter builtins. *)
Record env : Type := {
  environ : gmap string string;
  connect : string -> result unit;
  cursor : result unit;
  execute : string -> list pyval -> result unit;
  fetchall : string -> list pyval -> result (list (gmap string pyval));
  cursor_close : result unit;
  connection_close : result unit;
  now_isoformat : string;
  rt : runtime
}.

(** A computation that calls the driver: its outcome and the calls made up
    to the point where it returned or raised. *)
Definition io (A : Type) : Type := result A * list event.

Definition ret {A} (a : A) : io A := (OK a, []).

Definition lift {A} (r : result A) : io A := (r, []).

Definition call {A} (ev : event) (outcome : result A) : io A := (outcome, [ev]).

Definition iobind {A B} (m : io A) (k : A -> io B) : io B :=
  match m with
  | (OK a, t) => let '(r, t') := k a in (r, t ++ t')
  | (Raise e, t) => (Raise e, t)
  end.

(** [try: m  except Exception as e: handler(e)] *)
Definition try_except {A} (m : io A) (handler : exn -> io A) : io A :=
  match m with
  | (OK a, t) => (OK a, t)
  | (Raise e, t) => let '(r, t') := handler e in (r, t ++ t')
  end.

Notation "x <- m ;; k" := (iobind m (fun x => k))
  (at level 100, m at next level, right associativity).
Notation "m ;;; k" := (iobind m (fun _ => k))
  (at level 100, right associativity).

(** [os.environ[key]] *)
Definition environ_getitem (w : env) (key : string) : result string :=
  match environ w !! key with
  | Some v => OK v
  | None => Raise (KeyError key)
  end.

Definition get_db_connection (w : env) : io unit :=
  dsn <- lift (environ_getitem w "DATABASE_URL") ;;
  call (Connect dsn) (connect w dsn).

Definition generate_fake_users_sql : string :=
"
        SELECT * FROM generate_fake_users(%s, %s, %s, %s)
    ".

Definition generate_users (w : env) (locale : pyval) (seed batch_index batch_size : Z)
  : io (list (gmap string pyval)) :=
  let args := [locale; PInt seed; PInt batch_index; PInt batch_size] in
  get_db_connection w ;;;
  call Cursor (cursor w) ;;;
  call (Execute generate_fake_users_sql args) (execute w generate_fake_users_sql args) ;;;
  users <- call Fetchall (fetchall w generate_fake_users_sql args) ;;
  call CursorClose (cursor_close w) ;;;
  call ConnectionClose (connection_close w) ;;;
  ret users.

(** A response: the status code and the object handed to [jsonify]. *)
Definition response : Type := Z * pyval.

Definition json_error (message : string) : pyval :=
  PDict {[ "error" := PStr message ]}.

(** The body of the loop over [users]: both coordinates are read, rounded
    and stored back under their key. *)
Definition round_coordinates (r : runtime) (user : gmap string pyval)
  : result (gmap string pyval) :=
  bind (getitem user "latitude") (fun lat =>
  bind (round r lat 6) (fun lat' =>
  let user1 := <[ "latitude" := lat' ]> user in
  bind (getitem user1 "longitude") (fun lon =>
  bind (round r lon 6) (fun lon' =>
  OK (<[ "longitude" := lon' ]> user1))))).

Definition generated_body (w : env) (users : list (gmap string pyval))
    (locale : pyval) (seed batch_index batch_size : Z) : pyval :=
  PDict (<[ "users" := PList (PDict <$> users) ]>
        (<[ "locale" := locale ]>
        (<[ "seed" := PInt seed ]>
        (<[ "batch_index" := PInt batch_index ]>
        (<[ "batch_size" := PInt batch_size ]>
        (<[ "timestamp" := PStr (now_isoformat w) ]> ∅)))))).

(** The [try] block of [api_generate]; [request_json] is the outcome of
    evaluating [request.json]. *)
Definition api_generate_try (w : env) (request_json : result pyval) : io response :=
  data <- lift request_json ;;
  locale <- lift (get data "locale" (PStr "en_US")) ;;
  seed <- lift (bind (get data "seed" (PInt 12345)) (int (rt w))) ;;
  batch_index <- lift (bind (get data "batch_index" (PInt 0)) (int (rt w))) ;;
  batch_size <- lift (bind (get data "batch_size" (PInt 10)) (int (rt w))) ;;
  if (batch_size <? 1) || (batch_size >? 100) then
    ret (400, json_error "Batch size must be between 1 and 100")
  else if (seed <? 0) || (seed >? 2147483647) then
    ret (400, json_error "Seed must be between 0 and 2147483647")
  else
    users <- generate_users w locale seed batch_index batch_size ;;
    users' <- lift (for_each (round_coordinates (rt w)) users) ;;
    ret (200, generated_body w users' locale seed batch_index batch_size).

Definition api_generate (w : env) (request_json : result pyval) : io response :=
  try_except (api_generate_try w request_json)
    (fun e => ret (500, json_error (str (rt w) e))).

Definition healthy_body : pyval :=
  PDict (<[ "status" := PStr "healthy" ]> (<[ "database" := PStr "connected" ]> ∅)).

Definition unhealthy_body (message : string) : pyval :=
  PDict (<[ "status" := PStr "unhealthy" ]> (<[ "error" := PStr message ]> ∅)).

Definition health_try (w : env) : io response :=
  get_db_connection w ;;;
  call Cursor (cursor w) ;;;
  call (Execute "SELECT 1" []) (execute w "SELECT 1" []) ;;;
  call CursorClose (cursor_close w) ;;;
  call ConnectionClose (connection_close w) ;;;
  ret (200, healthy_body).

Definition health (w : env) : io response :=
  try_except (health_try w)
    (fun e => ret (500, unhealthy_body (str (rt w) e))).

Definition locales_sql : string :=
  "SELECT locale_code, locale_name FROM locales ORDER BY locale_code".

Definition get_locales (w : env) : io (list (gmap string pyval)) :=
  get_db_connection w ;;;
  call Cursor (cursor w) ;;;
  call (Execute locales_sql []) (execute w locales_sql []) ;;;
  locales <- call Fetchall (fetchall w locales_sql []) ;;
  call CursorClose (cursor_close w) ;;;
  call ConnectionClose (connection_close w) ;;;
  ret locales.

(** Flask's [render_template(name, **context)]: the page, or the
    exception the template engine raises. *)
Record flask : Type := {
  render_template : string -> gmap string pyval -> result string
}.

(** [index] has no [try]: an exception it raises reaches the
    framework. *)
Definition index (w : env) (f : flask) : io string :=
  locales <- get_locales w ;;
  lift (render_template f "index.html" {[ "locales" := PList (PDict <$> locales) ]}).

End App.

(** ** [benchmark.py] *)

Module Benchmark.
Import Py.

(** A line written by [print]: its format string and the values
    interpolated into it. *)
Inductive line : Type :=
| Generating (count : Z)
| Time_Throughput (elapsed throughput : float).

(** What [run_benchmark] does to the outside, in order: driver calls,
    the exit of each [with] block, and printed lines. *)
Inductive event : Type :=
| Connect (conninfo : option string)
| Cursor
| Execute (sql : string) (args : list pyval)
| Commit
| CursorExit
| ConnectionExit (pending_exception : bool)
| Print (l : line).

(** What the driver is run against.
    - [DATABASE_URL]: the module constant, [os.environ.get("DATABASE_URL")];
    - [connect], [cursor]: whether [psycopg.connect(...)] and
      [conn.cursor()] return;
    - [execute h sql args], [commit h]: whether the call returns when made
      after the events [h];
    - [exit_commit h]: whether the commit that the connection's [__exit__]
      issues on leaving the block normally returns;
    - [time n]: what the call number [n] of [time.time()] returns. *)
Record env : Type := {
  DATABASE_URL : option string;
  connect : option string -> result unit;
  cursor : result unit;
  execute : list event -> string -> list pyval -> result unit;
  commit : list event -> result unit;
  exit_commit : list event -> result unit;
  time : nat -> float
}.

(** The state a run threads: how often the clock was read, and the events
    so far. *)
Record state : Type := {
  clock_reads : nat;
  log : list event
}.

Definition emit (ev : event) (s : state) : state :=
  {| clock_reads := clock_reads s; log := log s ++ [ev] |}.

Definition M (A : Type) : Type := state -> result A * state.

Definition ret {A} (a : A) : M A := fun s => (OK a, s).

Definition lift {A} (r : result A) : M A := fun s => (r, s).

Definition mbind {A B} (m : M A) (k : A -> M B) : M B :=
  fun s =>
    match m s with
    | (OK a, s') => k a s'
    | (Raise e, s') => (Raise e, s')
    end.

Notation "x <- m ;; k" := (mbind m (fun x => k))
  (at level 100, m at next level, right associativity).
Notation "m ;;; k" := (mbind m (fun _ => k))
  (at level 100, right associativity).

(** [print(...)] *)
Definition print (l : line) : M unit := fun s => (OK tt, emit (Print l) s).

(** [time.time()] *)
Definition time_time (w : env) : M float :=
  fun s =>
    (OK (time w (clock_reads s)),
     {| clock_reads := S (clock_reads s); log := log s |}).

(** A driver call whose outcome depends on the events before it. *)
Definition db (ev : event) (outcome : list event -> result unit) : M unit :=
  fun s => (outcome (log s), emit ev s).

(** [with conn.cursor() as cur: body]: the cursor is closed on the way
    out, however the block is left. *)
Definition with_cursor {A} (w : env) (body : M A) : M A :=
  db Cursor (fun _ => cursor w) ;;;
  fun s => let '(r, s') := body s in (r, emit CursorExit s').

(** [with psycopg.connect(...) as conn: body]: leaving the block normally
    commits, leaving it by an exception rolls back and lets the exception
    through; the connection is closed either way. *)
Definition with_connection {A} (w : env) (body : M A) : M A :=
  db (Connect (DATABASE_URL w)) (fun _ => connect w (DATABASE_URL w)) ;;;
  fun s =>
    match body s with
    | (OK a, s') =>
        (bind (exit_commit w (log s')) (fun _ => OK a), emit (ConnectionExit false) s')
    | (Raise e, s') => (Raise e, emit (ConnectionExit true) s')
    end.

Definition generate_fake_users_sql : string :=
  "SELECT generate_fake_users(%s, %s, %s);".

(** The [for count in user_counts] loop; [results] is the list appended
    to. *)
Fixpoint for_count (w : env) (locale seed : pyval) (user_counts : list Z)
    (results : list (Z * float * float)) : M (list (Z * float * float)) :=
  match user_counts with
  | [] => ret results
  | count :: rest =>
      print (Generating count) ;;;
      start <- time_time w ;;
      db (Execute generate_fake_users_sql [locale; seed; PInt count])
         (fun h => execute w h generate_fake_users_sql [locale; seed; PInt count]) ;;;
      db Commit (commit w) ;;;
      now <- time_time w ;;
      let elapsed := PrimFloat.sub now start in
      throughput <- lift (truediv count elapsed) ;;
      let results := results ++ [(count, elapsed, throughput)] in
      print (Time_Throughput elapsed throughput) ;;;
      for_count w locale seed rest results
  end.

Definition run_benchmark (w : env) (user_counts : list Z) (locale seed : pyval)
  : M (list (Z * float * float)) :=
  let results := [] in
  with_connection w (with_cursor w (for_count w locale seed user_counts results)).

(** The state [run_benchmark] is called in by the script. *)
Definition initial : state := {| clock_reads := 0; log := [] |}.

(** The lines the script prints after the run. *)
Inductive report_line : Type :=
| Title
| Header
| Row (count : Z) (elapsed throughput : float).

(** What the script does to the outside: the events of [run_benchmark],
    then the lines of the report. *)
Inductive script_event : Type :=
| During (ev : event)
| Report (l : report_line).

Definition user_counts : list Z := [10000; 50000; 100000; 500000; 1000000].

(** The [for count, elapsed, throughput in results] loop of the
    script. *)
Definition report_rows (results : list (Z * float * float)) : list script_event :=
  (fun r : Z * float * float => Report (Row (fst (fst r)) (snd (fst r)) (snd r))) <$> results.

(** The [if __name__ == "__main__"] block; [run_benchmark] is called
    with its default [locale] and [seed]. *)
Definition main (w : env) : result unit * list script_event :=
  match run_benchmark w user_counts (PStr "en_US") (PInt 12345) initial with
  | (OK results, s) =>
      (OK tt, (During <$> log s) ++ [Report Title; Report Header] ++ report_rows results)
  | (Raise e, s) => (Raise e, During <$> log s)
  end.

End Benchmark.

(** ** Vocabulary of the statements *)

Import Py.

(** [int(data.get(key, default))] for a [dict] body. *)
Definition int_field (w : App.env) (d : gmap string pyval) (key : string)
    (default : Z) : result Z :=
  bind (get (PDict d) key (PInt default)) (int (App.rt w)).

(** [data.get('locale', 'en_US')] for a [dict] body. *)
Definition locale_field (d : gmap string pyval) : pyval :=
  match d !! "locale" with Some v => v | None => PStr "en_US" end.

(** The range checks of [api_generate]. *)
Definition batch_size_in_range (n : Z) : Prop := 1 <= n <= 100.
Definition seed_in_range (n : Z) : Prop := 0 <= n <= 2147483647.


(** [key] of a JSON object, [None] when absent or when the body is no
    object. *)
Definition field (body : pyval) (key : string) : option pyval :=
  match body with
  | PDict d => d !! key
  | _ => None
  end.

(** [needle in haystack] for two [str]. *)
Fixpoint contains (needle haystack : string) : bool :=
  String.prefix needle haystack ||
  match haystack with
  | EmptyString => false
  | String _ rest => contains needle rest
  end.

(** A row after the loop body of [api_generate]: both coordinates
    replaced by what [round(., 6)] returned for them, the rest as it
    was. *)
Definition rounded (r : runtime) (user user' : gmap string pyval) : Prop :=
  exists lat lon lat' lon',
    user !! "latitude" = Some lat /\ user !! "longitude" = Some lon /\
    round r lat 6 = OK lat' /\ round r lon 6 = OK lon' /\
    user' = <[ "longitude" := lon' ]> (<[ "latitude" := lat' ]> user).

(** Every call [health] makes on the database returns. *)
Definition database_answers (w : App.env) (dsn : string) : Prop :=
  App.environ w !! "DATABASE_URL" = Some dsn /\
  App.connect w dsn = OK tt /\
  App.cursor w = OK tt /\
  App.execute w "SELECT 1" [] = OK tt /\
  App.cursor_close w = OK tt /\
  App.connection_close w = OK tt.


(** The first call of [health] that raises, with the exception [e] it
    raises and the calls [t] made up to and including it. *)
Definition health_failure (w : App.env) (e : exn) (t : list App.event) : Prop :=
  App.environ w !! "DATABASE_URL" = None /\ e = KeyError "DATABASE_URL" /\ t = [] \/
  exists dsn, App.environ w !! "DATABASE_URL" = Some dsn /\
    (App.connect w dsn = Raise e /\ t = [App.Connect dsn] \/
     App.connect w dsn = OK tt /\
     (App.cursor w = Raise e /\ t = [App.Connect dsn; App.Cursor] \/
      App.cursor w = OK tt /\
      (App.execute w "SELECT 1" [] = Raise e /\
         t = [App.Connect dsn; App.Cursor; App.Execute "SELECT 1" []] \/
       App.execute w "SELECT 1" [] = OK tt /\
       (App.cursor_close w = Raise e /\
          t = [App.Connect dsn; App.Cursor; App.Execute "SELECT 1" []; App.CursorClose] \/
        App.cursor_close w = OK tt /\
        App.connection_close w = Raise e /\
          t = [App.Connect dsn; App.Cursor; App.Execute "SELECT 1" [];
               App.CursorClose; App.ConnectionClose])))).

(** Every call [run_benchmark] makes on the driver returns. *)
Definition driver_completes (w : Benchmark.env) : Prop :=
  Benchmark.connect w (Benchmark.DATABASE_URL w) = OK tt /\
  Benchmark.cursor w = OK tt /\
  (forall h sql args, Benchmark.execute w h sql args = OK tt) /\
  (forall h, Benchmark.commit w h = OK tt) /\
  (forall h, Benchmark.exit_commit w h = OK tt).

(** The two clock readings of a pass of the loop entered after [k]
    readings, and their difference. *)
Definition start_reading (w : Benchmark.env) (k : nat) : float := Benchmark.time w k.
Definition end_reading (w : Benchmark.env) (k : nat) : float := Benchmark.time w (S k).
Definition elapsed_time (w : Benchmark.env) (k : nat) : float :=
  PrimFloat.sub (end_reading w k) (start_reading w k).

(** What one pass of the loop appends for [count]. *)
Definition measurement (w : Benchmark.env) (k : nat) (count : Z)
  : result (Z * float * float) :=
  bind (truediv count (elapsed_time w k))
    (fun throughput => OK (count, elapsed_time w k, throughput)).

Fixpoint measurements (w : Benchmark.env) (k : nat) (user_counts : list Z)
  : result (list (Z * float * float)) :=
  match user_counts with
  | [] => OK []
  | count :: rest =>
      bind (measurement w k count) (fun m =>
      bind (measurements w (S (S k)) rest) (fun ms => OK (m :: ms)))
  end.

(** A binary64 value that is not below zero: a zero, a positive number or
    [+inf]. *)
Definition nonneg (x : spec_float) : Prop :=
  match x with
  | S754_zero _ | S754_finite false _ _ | S754_infinity false => True
  | _ => False
  end.

(** ** Sample environments

    Concrete environments on which the statements below are run. *)

Module Sample.

(** Builtins for the samples.  [int_of_str] knows the two literals the
    samples send as [str].  [round] leaves an [int] as it is, turns a
    [bool] into an [int] and rejects what is no number; the [float]s of
    the sample rows have fewer than six decimals, so that [round(., 6)]
    returns them unchanged.  [str] renders a [KeyError] as the quoted
    key, an [AttributeError] and the [TypeError] of [int()] with the
    message of CPython 3.10, and a library error as its message; the
    other renderings are abridged. *)
Definition builtins : runtime := {|
  int_of_str := fun s =>
    if String.eqb s "7" then Some 7
    else if String.eqb s "0" then Some 0
    else None;
  round := fun v _ =>
    match v with
    | PInt z => OK (PInt z)
    | PBool b => OK (PInt (if b then 1 else 0))
    | PFloat f => OK (PFloat f)
    | _ => Raise (TypeError "round" (type_name v))
    end;
  str := fun e =>
    match e with
    | KeyError k => String.append "'" (String.append k "'")
    | AttributeError t a =>
        String.append "'" (String.append t
          (String.append "' object has no attribute '" (String.append a "'")))
    | TypeError op t =>
        String.append op (String.append "() argument must be a string, a bytes-like object or a real number, not '"
          (String.append t "'"))
    | ValueError op _ => String.append "invalid literal for " (String.append op "() with base 10")
    | OverflowError _ => "cannot convert float infinity to integer"
    | ZeroDivisionError => "float division by zero"
    | LibraryError _ m => m
    end
|}.

Definition row (name : string) (latitude longitude : pyval) : gmap string pyval :=
  <[ "full_name" := PStr name ]>
  (<[ "latitude" := latitude ]>
  (<[ "longitude" := longitude ]> ∅)).

(** A database that answers every call, the stored procedure yielding
    [rows]. *)
Definition database (rows : list (gmap string pyval)) : App.env := {|
  App.environ := {[ "DATABASE_URL" := "postgresql://localhost/fake" ]};
  App.connect := fun _ => OK tt;
  App.cursor := OK tt;
  App.execute := fun _ _ => OK tt;
  App.fetchall := fun _ _ => OK rows;
  App.cursor_close := OK tt;
  App.connection_close := OK tt;
  App.now_isoformat := "2024-05-17T10:15:30.123456";
  App.rt := builtins
|}.

Definition two_rows : list (gmap string pyval) :=
  [ row "Ada Lovelace" (PFloat 51.5) (PFloat (-0.125));
    row "Alan Turing" (PInt 53) (PFloat 2.25) ].

(** A row without its [latitude] column. *)
Definition row_without_latitude : gmap string pyval :=
  <[ "full_name" := PStr "Ada Lovelace" ]> (<[ "longitude" := PFloat (-0.125) ]> ∅).

(** A database that refuses the connection. *)
Definition database_down : App.env := {|
  App.environ := {[ "DATABASE_URL" := "postgresql://localhost/fake" ]};
  App.connect := fun _ => Raise (LibraryError "OperationalError" "connection refused");
  App.cursor := OK tt;
  App.execute := fun _ _ => OK tt;
  App.fetchall := fun _ _ => OK [];
  App.cursor_close := OK tt;
  App.connection_close := OK tt;
  App.now_isoformat := "2024-05-17T10:15:30.123456";
  App.rt := builtins
|}.

(** A clock for [benchmark.py]: the readings of successive
    [time.time()] calls. *)
Definition clock (readings : list float) (n : nat) : float :=
  nth n readings 0%float.

(** A driver that answers every call, run against the given clock. *)
Definition bench (readings : list float) : Benchmark.env := {|
  Benchmark.DATABASE_URL := Some "postgresql://localhost/fake";
  Benchmark.connect := fun _ => OK tt;
  Benchmark.cursor := OK tt;
  Benchmark.execute := fun _ _ _ => OK tt;
  Benchmark.commit := fun _ => OK tt;
  Benchmark.exit_commit := fun _ => OK tt;
  Benchmark.time := clock readings
|}.

End Sample.

(** ** Vocabulary of the further properties *)

(** The calls of one complete round trip to the database that runs the
    statement [sql] with the parameters [args]. *)
Definition round_trip (dsn sql : string) (args : list pyval) : list App.event :=
  [App.Connect dsn; App.Cursor; App.Execute sql args; App.Fetchall;
   App.CursorClose; App.ConnectionClose].

(** The parameters [generate_users] hands to the stored procedure. *)
Definition procedure_args (locale : pyval) (seed batch_index batch_size : Z) : list pyval :=
  [locale; PInt seed; PInt batch_index; PInt batch_size].

(** The keys of a 200 body of [api_generate]. *)
Definition generated_keys : gset string :=
  {[ "users"; "locale"; "seed"; "batch_index"; "batch_size"; "timestamp" ]}.

(** The count, the elapsed time and the throughput of a result tuple of
    [run_benchmark]. *)
Definition tuple_count (r : Z * float * float) : Z := fst (fst r).
Definition tuple_elapsed (r : Z * float * float) : float := snd (fst r).
Definition tuple_throughput (r : Z * float * float) : float := snd r.

(** The events of one completed pass of the loop of [run_benchmark],
    read off the tuple it appended. *)
Definition pass_events (locale seed : pyval) (r : Z * float * float)
  : list Benchmark.event :=
  [Benchmark.Print (Benchmark.Generating (tuple_count r));
   Benchmark.Execute Benchmark.generate_fake_users_sql [locale; seed; PInt (tuple_count r)];
   Benchmark.Commit;
   Benchmark.Print (Benchmark.Time_Throughput (tuple_elapsed r) (tuple_throughput r))].

(** The report lines among the events of the script. *)
Definition reports (out : list Benchmark.script_event) : list Benchmark.report_line :=
  omap (fun ev => match ev with Benchmark.Report l => Some l | _ => None end) out.

(** ** Further environments *)

Module Scenario.

(** A database that accepts the connection and raises on every
    statement. *)
Definition failing_statement : App.env := {|
  App.environ := {[ "DATABASE_URL" := "postgresql://localhost/fake" ]};
  App.connect := fun _ => OK tt;
  App.cursor := OK tt;
  App.execute := fun _ _ =>
    Raise (LibraryError "UndefinedFunction" "function generate_fake_users does not exist");
  App.fetchall := fun _ _ => OK [];
  App.cursor_close := OK tt;
  App.connection_close := OK tt;
  App.now_isoformat := "2024-05-17T10:15:30.123456";
  App.rt := Sample.builtins
|}.

(** A process started without [DATABASE_URL]. *)
Definition unconfigured : App.env := {|
  App.environ := ∅;
  App.connect := fun _ => OK tt;
  App.cursor := OK tt;
  App.execute := fun _ _ => OK tt;
  App.fetchall := fun _ _ => OK [];
  App.cursor_close := OK tt;
  App.connection_close := OK tt;
  App.now_isoformat := "2024-05-17T10:15:30.123456";
  App.rt := Sample.builtins
|}.

Definition locale_rows : list (gmap string pyval) :=
  [ <[ "locale_code" := PStr "de_DE" ]> (<[ "locale_name" := PStr "German" ]> ∅);
    <[ "locale_code" := PStr "en_US" ]> (<[ "locale_name" := PStr "English" ]> ∅) ].

(** A template engine that renders the number of locales it is given. *)
Definition pages : App.flask := {|
  App.render_template := fun name context =>
    match context !! "locales" with
    | Some (PList l) => OK (String.append name (if Nat.eqb (length l) 2 then ": 2 locales" else ": locales"))
    | _ => Raise (LibraryError "UndefinedError" "'locales' is undefined")
    end
|}.

End Scenario.

(** * Properties *)

(** ** Binary64 subtraction keeps the order *)


Lemma digits2_pos_size (m : positive) : digits2_pos m = Pos.size m.
Proof. induction m; simpl; congruence. Qed.

Lemma digits2_pos_bounds (m : positive) :
  2 ^ (Z.pos (digits2_pos m) - 1) <= Z.pos m < 2 ^ Z.pos (digits2_pos m).
Proof.
  rewrite digits2_pos_size. split.
  - pose proof (Pos.size_le m) as H.
    assert (Z.pos (2 ^ Pos.size m) <= Z.pos m~0) as H' by exact H.
    rewrite Pos2Z.inj_pow in H'.
    replace (Z.pos (Pos.size m)) with (Z.succ (Z.pos (Pos.size m) - 1)) in H' by lia.
    rewrite Z.pow_succ_r in H' by lia. lia.
  - pose proof (Pos.size_gt m) as H.
    assert (Z.pos m < Z.pos (2 ^ Pos.size m)) as H' by exact H.
    rewrite Pos2Z.inj_pow in H'. exact H'.
Qed.

Lemma iter_xO_value (m d : positive) : Z.pos (Pos.iter xO m d) = Z.pos m * 2 ^ Z.pos d.
Proof.
  induction d as [| d IH] using Pos.peano_ind.
  - simpl. lia.
  - rewrite Pos.iter_succ, Pos2Z.inj_xO, IH, Pos2Z.inj_succ, Z.pow_succ_r by lia. lia.
Qed.

Lemma shl_align_value (m : positive) (e e' : Z) :
  e' <= e -> Z.pos (fst (shl_align m e e')) = Z.pos m * 2 ^ (e - e').
Proof.
  intros H. unfold shl_align.
  destruct (e' - e) as [| d | d] eqn:Hd; simpl.
  - replace (e - e') with 0 by lia. lia.
  - lia.
  - rewrite iter_xO_value. f_equal. f_equal. lia.
Qed.

(** Among canonical mantissas a larger exponent means a larger value. *)
Lemma canonical_exponent_lt (m1 m2 : positive) (e1 e2 : Z) :
  canonical_mantissa prec emax m1 e1 = true ->
  canonical_mantissa prec emax m2 e2 = true ->
  e1 < e2 ->
  Z.pos m1 <= Z.pos m2 * 2 ^ (e2 - e1).
Proof.
  unfold canonical_mantissa, fexp, emin. intros H1 H2 Hlt.
  apply Z.eqb_eq in H1, H2.
  pose proof (digits2_pos_bounds m1) as [_ Hm1].
  pose proof (digits2_pos_bounds m2) as [Hm2 _].
  assert (Z.pos (digits2_pos m1) <= prec) as Hd1 by lia.
  assert (Z.pos (digits2_pos m2) = prec) as Hd2 by lia.
  rewrite Hd2 in Hm2.
  assert (2 ^ Z.pos (digits2_pos m1) <= 2 ^ prec) as Hp
    by (apply Z.pow_le_mono_r; lia).
  assert (2 ^ 1 <= 2 ^ (e2 - e1)) as Hq by (apply Z.pow_le_mono_r; lia).
  assert (2 ^ prec = 2 ^ (prec - 1) * 2 ^ 1) as Hr
    by (rewrite <- Z.pow_add_r by (unfold prec; lia); f_equal; lia).
  assert (0 < 2 ^ (prec - 1)) by (apply Z.pow_pos_nonneg; unfold prec; lia).
  nia.
Qed.

Lemma iter_pos_invariant {A} (P : A -> Prop) (f : A -> A) :
  (forall x, P x -> P (f x)) -> forall n x, P x -> P (SpecFloat.iter_pos f n x).
Proof.
  intros Hf. induction n as [n IH | n IH |]; intros x Hx; simpl; auto.
Qed.

Lemma shr_1_nonneg (mrs : shr_record) : 0 <= shr_m mrs -> 0 <= shr_m (shr_1 mrs).
Proof.
  destruct mrs as [m r s]. simpl. intros H.
  destruct m as [| [p | p |] | p]; simpl; lia.
Qed.

Lemma shr_fexp_nonneg (m e : Z) (l : location) :
  0 <= m -> 0 <= shr_m (fst (shr_fexp prec emax m e l)).
Proof.
  intros H. unfold shr_fexp, shr.
  assert (0 <= shr_m (shr_record_of_loc m l)) as H0
    by (destruct l as [| []]; exact H).
  destruct (fexp prec emax (Zdigits2 m + e) - e); simpl; try exact H0.
  apply (iter_pos_invariant (fun mrs => 0 <= shr_m mrs)); [apply shr_1_nonneg | exact H0].
Qed.

Lemma round_nearest_even_nonneg (m : Z) (l : location) :
  0 <= m -> 0 <= round_nearest_even m l.
Proof.
  intros H. destruct l as [| []]; simpl; try lia. destruct (Z.even m); lia.
Qed.

Lemma binary_round_aux_nonneg (m e : Z) (l : location) :
  0 <= m -> nonneg (binary_round_aux prec emax false m e l).
Proof.
  intros H. unfold binary_round_aux.
  pose proof (shr_fexp_nonneg m e l H) as H1.
  destruct (shr_fexp prec emax m e l) as [mrs' e']. simpl in H1.
  pose proof (shr_fexp_nonneg _ e' loc_Exact
                (round_nearest_even_nonneg _ (loc_of_shr_record mrs') H1)) as H2.
  destruct (shr_fexp prec emax (round_nearest_even (shr_m mrs') (loc_of_shr_record mrs'))
              e' loc_Exact) as [mrs'' e'']. simpl in H2.
  destruct (shr_m mrs'') as [| p | p]; simpl; [exact I | | lia].
  destruct (e'' <=? emax - prec); exact I.
Qed.

Lemma binary_normalize_nonneg (m e : Z) :
  0 <= m -> nonneg (binary_normalize prec emax m e false).
Proof.
  intros H. destruct m as [| p | p]; simpl; [exact I | | lia].
  unfold binary_round.
  destruct (shl_align p e (fexp prec emax (Z.pos (digits2_pos p) + e))) as [mz ez].
  apply binary_round_aux_nonneg. lia.
Qed.

Lemma SFleb_zero_nonneg (x : spec_float) : nonneg x -> SFleb (S754_zero false) x = true.
Proof. destruct x as [s | [] | | [] m e]; simpl; intros H; try reflexivity; destruct H. Qed.

Lemma SFsub_nonneg (x y : spec_float) :
  valid_binary x = true -> valid_binary y = true ->
  (forall s, y <> S754_infinity s) ->
  SFleb y x = true ->
  nonneg (SF64sub x y).
Proof.
  intros Vx Vy Hfin Hle. unfold SF64sub, SFsub.
  destruct x as [sx | sx | | sx mx ex], y as [sy | sy | | sy my ey];
    try discriminate Hle; try (destruct (Hfin sy); reflexivity); simpl in *.
  - destruct sx, sy; exact I.
  - destruct sy; [exact I | discriminate Hle].
  - destruct sx; [discriminate Hle | exact I].
  - destruct sx; [discriminate Hle | exact I].
  - destruct sx; [discriminate Hle | exact I].
  - apply binary_normalize_nonneg.
    unfold SFleb, SFcompare in Hle.
    apply andb_true_iff in Vx as [Cx _], Vy as [Cy _].
    pose proof (Z.le_min_l ex ey) as Hl. pose proof (Z.le_min_r ex ey) as Hr.
    rewrite !shl_align_value by assumption.
    assert (0 < 2 ^ (ex - Z.min ex ey)) by (apply Z.pow_pos_nonneg; lia).
    assert (0 < 2 ^ (ey - Z.min ex ey)) by (apply Z.pow_pos_nonneg; lia).
    destruct sy, sx; simpl; try discriminate Hle.
    + (* both negative: [y <= x] is [|x| <= |y|] *)
      destruct (Z.compare_spec ey ex) as [Heq | Hlt | Hgt]; try discriminate Hle.
      * subst ey. rewrite Pos.compare_cont_spec in Hle. simpl in Hle.
        destruct (Pos.compare_spec my mx) as [-> | Hm | Hm]; simpl in Hle;
          try discriminate Hle; [lia |].
        assert (Z.pos mx < Z.pos my) by lia. nia.
      * pose proof (canonical_exponent_lt mx my ex ey Cx Cy ltac:(lia)) as Hc.
        rewrite Z.min_l by lia. rewrite Z.min_l in H by lia.
        replace (ex - ex) with 0 by lia. simpl (2 ^ 0). lia.
    + (* [y] negative, [x] positive *)
      lia.
    + (* both positive *)
      destruct (Z.compare_spec ey ex) as [Heq | Hlt | Hgt]; try discriminate Hle.
      * subst ey. rewrite Pos.compare_cont_spec in Hle. simpl in Hle.
        destruct (Pos.compare_spec my mx) as [-> | Hm | Hm]; simpl in Hle;
          try discriminate Hle; [lia |].
        assert (Z.pos my < Z.pos mx) by lia. nia.
      * pose proof (canonical_exponent_lt my mx ey ex Cy Cx Hlt) as Hc.
        rewrite Z.min_r by lia.
        replace (ey - ey) with 0 by lia. simpl (2 ^ 0). lia.
Qed.

Lemma Prim2SF_finite (a : float) :
  is_finite a = true -> forall s, Prim2SF a <> S754_infinity s.
Proof.
  unfold is_finite. intros H s. apply negb_true_iff, orb_false_iff in H as [Hn Hi].
  unfold Prim2SF. rewrite Hn, Hi.
  destruct (is_zero a); [discriminate |].
  destruct (Z.frexp a) as [r exp].
  destruct (shr_fexp prec emax (Uint63Axioms.to_Z (normfr_mantissa r)) (exp - prec) loc_Exact)
    as [shr e'].
  destruct (shr_m shr); discriminate.
Qed.

(** If the earlier reading [a] is finite and not above the later reading
    [b], the difference [b - a] is not below zero. *)
Lemma sub_nonneg (a b : float) :
  is_finite a = true -> (a <=? b)%float = true -> (0 <=? b - a)%float = true.
Proof.
  intros Hfin Hle. rewrite leb_spec in Hle. rewrite leb_spec, sub_spec.
  change (Prim2SF 0) with (S754_zero false).
  apply SFleb_zero_nonneg, SFsub_nonneg; auto using Prim2SF_valid, Prim2SF_finite.
Qed.

(** ** The driver-call monad *)

Lemma iobind_lift_OK {A B} (a : A) (k : A -> App.io B) :
  App.iobind (App.lift (OK a)) k = k a.
Proof. unfold App.iobind, App.lift. destruct (k a) as [r t]. reflexivity. Qed.

(** A handler whose [except] clause returns always produces a response:
    no exception is left to the framework. *)
Lemma try_except_responds {A} (m : App.io A) (h : exn -> A) :
  exists a, fst (App.try_except m (fun e => App.ret (h e))) = OK a.
Proof. destruct m as [[a | e] t]; simpl; eauto. Qed.

Lemma api_generate_responds (w : App.env) (request_json : result pyval) :
  exists r, fst (App.api_generate w request_json) = OK r.
Proof. apply try_except_responds. Qed.

Lemma health_responds (w : App.env) : exists r, fst (App.health w) = OK r.
Proof. apply try_except_responds. Qed.

(** ** [api_generate] once the body is read

    With the body a [dict] and the three [int(...)] conversions done, the
    [try] block is the two range checks followed by the generation. *)

Lemma api_generate_try_parsed (w : App.env) (d : gmap string pyval) seed batch_index batch_size :
  int_field w d "seed" 12345 = OK seed ->
  int_field w d "batch_index" 0 = OK batch_index ->
  int_field w d "batch_size" 10 = OK batch_size ->
  App.api_generate_try w (OK (PDict d)) =
    if (batch_size <? 1) || (batch_size >? 100) then
      App.ret (400, App.json_error "Batch size must be between 1 and 100")
    else if (seed <? 0) || (seed >? 2147483647) then
      App.ret (400, App.json_error "Seed must be between 0 and 2147483647")
    else
      App.iobind (App.generate_users w (locale_field d) seed batch_index batch_size)
        (fun users =>
         App.iobind (App.lift (for_each (App.round_coordinates (App.rt w)) users))
           (fun users' =>
            App.ret (200, App.generated_body w users' (locale_field d) seed batch_index batch_size))).
Proof.
  unfold int_field. intros Hs Hi Hb.
  unfold App.api_generate_try.
  rewrite iobind_lift_OK. simpl get at 1. rewrite iobind_lift_OK.
  rewrite Hs, iobind_lift_OK, Hi, iobind_lift_OK, Hb, iobind_lift_OK.
  reflexivity.
Qed.

Lemma out_of_batch_range n :
  ~ batch_size_in_range n -> (n <? 1) || (n >? 100) = true.
Proof. unfold batch_size_in_range. intros H. apply orb_true_iff. lia. Qed.

Lemma in_batch_range n :
  batch_size_in_range n -> (n <? 1) || (n >? 100) = false.
Proof. unfold batch_size_in_range. intros H. apply orb_false_iff. lia. Qed.

Lemma out_of_seed_range n :
  ~ seed_in_range n -> (n <? 0) || (n >? 2147483647) = true.
Proof. unfold seed_in_range. intros H. apply orb_true_iff. lia. Qed.

Lemma in_seed_range n :
  seed_in_range n -> (n <? 0) || (n >? 2147483647) = false.
Proof. unfold seed_in_range. intros H. apply orb_false_iff. lia. Qed.

Lemma api_generate_bad_batch_size (w : App.env) (d : gmap string pyval) seed batch_index batch_size :
  int_field w d "seed" 12345 = OK seed ->
  int_field w d "batch_index" 0 = OK batch_index ->
  int_field w d "batch_size" 10 = OK batch_size ->
  ~ batch_size_in_range batch_size ->
  App.api_generate w (OK (PDict d))
    = (OK (400, App.json_error "Batch size must be between 1 and 100"), []).
Proof.
  intros Hs Hi Hb Hout. unfold App.api_generate.
  rewrite (api_generate_try_parsed w d seed batch_index batch_size Hs Hi Hb).
  rewrite (out_of_batch_range _ Hout). reflexivity.
Qed.

Lemma api_generate_bad_seed (w : App.env) (d : gmap string pyval) seed batch_index batch_size :
  int_field w d "seed" 12345 = OK seed ->
  int_field w d "batch_index" 0 = OK batch_index ->
  int_field w d "batch_size" 10 = OK batch_size ->
  batch_size_in_range batch_size ->
  ~ seed_in_range seed ->
  App.api_generate w (OK (PDict d))
    = (OK (400, App.json_error "Seed must be between 0 and 2147483647"), []).
Proof.
  intros Hs Hi Hb Hin Hout. unfold App.api_generate.
  rewrite (api_generate_try_parsed w d seed batch_index batch_size Hs Hi Hb).
  rewrite (in_batch_range _ Hin), (out_of_seed_range _ Hout). reflexivity.
Qed.

(** ** Range validation *)

(** C1, as stated, fails: the body [{"batch_size": 0, "seed": null}] has
    an integer [batch_size] outside [1, 100], yet [int(None)] raises
    [TypeError] on the line that reads [seed], before the range check, and
    the handler answers 500. *)
Lemma batch_size_check_follows_seed_conversion :
  let d : gmap string pyval := <[ "batch_size" := PInt 0 ]> (<[ "seed" := PNone ]> ∅) in
  let w := Sample.database [] in
  d !! "batch_size" = Some (PInt 0) /\ ~ batch_size_in_range 0 /\
  App.api_generate w (OK (PDict d))
    = (OK (500, App.json_error (str (App.rt w) (TypeError "int" "NoneType"))), []) /\
  ~ exists body t, App.api_generate w (OK (PDict d)) = (OK (400, body), t).
Proof.
  simpl. split; [reflexivity |]. split; [unfold batch_size_in_range; lia |].
  split; [reflexivity |]. intros (body & t & H). vm_compute in H. discriminate H.
Qed.

(** C1, amended: when the body is a JSON object whose [seed] and
    [batch_index] (given or defaulted) are values [int()] accepts and
    whose [batch_size] converts to an integer outside [1, 100], the
    handler answers 400 with the error "Batch size must be between 1 and
    100", whatever [locale], [seed] and [batch_index] are, and without
    calling the database. *)
Theorem api_generate_rejects_batch_size
    (w : App.env) (d : gmap string pyval) (seed batch_index batch_size : Z) :
  int_field w d "seed" 12345 = OK seed ->
  int_field w d "batch_index" 0 = OK batch_index ->
  int_field w d "batch_size" 10 = OK batch_size ->
  ~ batch_size_in_range batch_size ->
  App.api_generate w (OK (PDict d))
    = (OK (400, PDict {[ "error" := PStr "Batch size must be between 1 and 100" ]}), []).
Proof.
  intros Hs Hi Hb Hout.
  exact (api_generate_bad_batch_size w d seed batch_index batch_size Hs Hi Hb Hout).
Qed.

Lemma api_generate_rejects_batch_size_witness :
  App.api_generate (Sample.database Sample.two_rows)
      (OK (PDict (<[ "batch_size" := PInt 101 ]> (<[ "seed" := PInt (-4) ]> ∅))))
    = (OK (400, PDict {[ "error" := PStr "Batch size must be between 1 and 100" ]}), []).
Proof.
  apply (api_generate_rejects_batch_size _ _ (-4) 0 101);
    [reflexivity | reflexivity | reflexivity | unfold batch_size_in_range; lia].
Defined.

(** C2, as stated, fails: the body
    [{"seed": -1, "batch_size": 5, "batch_index": null}] has an integer
    [seed] outside [0, 2147483647] and a [batch_size] within [1, 100], yet
    [int(None)] raises on the line that reads [batch_index] and the
    handler answers 500. *)
Lemma seed_check_follows_batch_index_conversion :
  let d : gmap string pyval :=
    <[ "seed" := PInt (-1) ]> (<[ "batch_size" := PInt 5 ]> (<[ "batch_index" := PNone ]> ∅)) in
  let w := Sample.database [] in
  d !! "seed" = Some (PInt (-1)) /\ ~ seed_in_range (-1) /\
  d !! "batch_size" = Some (PInt 5) /\ batch_size_in_range 5 /\
  App.api_generate w (OK (PDict d))
    = (OK (500, App.json_error (str (App.rt w) (TypeError "int" "NoneType"))), []) /\
  ~ exists body t, App.api_generate w (OK (PDict d)) = (OK (400, body), t).
Proof.
  simpl. unfold seed_in_range, batch_size_in_range.
  repeat split; try reflexivity; try lia.
  intros (body & t & H). vm_compute in H. discriminate H.
Qed.

(** C2, amended: when the body is a JSON object whose [batch_index]
    (given or defaulted) is a value [int()] accepts, whose [seed] converts
    to an integer outside [0, 2147483647] and whose [batch_size] converts
    to an integer within [1, 100], the handler answers 400 with the error
    "Seed must be between 0 and 2147483647", without calling the
    database. *)
Theorem api_generate_rejects_seed
    (w : App.env) (d : gmap string pyval) (seed batch_index batch_size : Z) :
  int_field w d "seed" 12345 = OK seed ->
  int_field w d "batch_index" 0 = OK batch_index ->
  int_field w d "batch_size" 10 = OK batch_size ->
  batch_size_in_range batch_size ->
  ~ seed_in_range seed ->
  App.api_generate w (OK (PDict d))
    = (OK (400, PDict {[ "error" := PStr "Seed must be between 0 and 2147483647" ]}), []).
Proof.
  intros Hs Hi Hb Hin Hout.
  exact (api_generate_bad_seed w d seed batch_index batch_size Hs Hi Hb Hin Hout).
Qed.

Lemma api_generate_rejects_seed_witness :
  App.api_generate (Sample.database Sample.two_rows)
      (OK (PDict (<[ "seed" := PInt 2147483648 ]> (<[ "batch_size" := PStr "7" ]> ∅))))
    = (OK (400, PDict {[ "error" := PStr "Seed must be between 0 and 2147483647" ]}), []).
Proof.
  apply (api_generate_rejects_seed _ _ 2147483648 0 7);
    [reflexivity | reflexivity | reflexivity
    | unfold batch_size_in_range; lia | unfold seed_in_range; lia].
Defined.

(** C9, as stated, fails: in the body
    [{"batch_size": 0, "seed": -1, "batch_index": null}] both
    [batch_size] and [seed] are out of range, yet the handler answers
    500: [int(None)] raises on the line that reads [batch_index], before
    either check. *)
Lemma both_checks_follow_batch_index_conversion :
  let d : gmap string pyval :=
    <[ "batch_size" := PInt 0 ]> (<[ "seed" := PInt (-1) ]> (<[ "batch_index" := PNone ]> ∅)) in
  let w := Sample.database [] in
  d !! "batch_size" = Some (PInt 0) /\ ~ batch_size_in_range 0 /\
  d !! "seed" = Some (PInt (-1)) /\ ~ seed_in_range (-1) /\
  App.api_generate w (OK (PDict d))
    = (OK (500, App.json_error (str (App.rt w) (TypeError "int" "NoneType"))), []) /\
  ~ exists body t, App.api_generate w (OK (PDict d)) = (OK (400, body), t).
Proof.
  simpl. unfold seed_in_range, batch_size_in_range.
  repeat split; try reflexivity; try lia.
  intros (body & t & H). vm_compute in H. discriminate H.
Qed.

(** C9, amended: when the body is a JSON object whose [batch_index]
    (given or defaulted) is a value [int()] accepts and in which both
    [batch_size] and [seed] convert to integers out of their range, the
    handler answers with the 400 batch-size error: [batch_size] is
    checked before [seed], and the message names the batch size and
    not the seed. *)
Theorem api_generate_checks_batch_size_first
    (w : App.env) (d : gmap string pyval) (seed batch_index batch_size : Z) :
  int_field w d "seed" 12345 = OK seed ->
  int_field w d "batch_index" 0 = OK batch_index ->
  int_field w d "batch_size" 10 = OK batch_size ->
  ~ batch_size_in_range batch_size ->
  ~ seed_in_range seed ->
  exists message,
    App.api_generate w (OK (PDict d)) = (OK (400, PDict {[ "error" := PStr message ]}), []) /\
    message = "Batch size must be between 1 and 100" /\
    contains "Batch size" message = true /\
    contains "Seed" message = false /\ contains "seed" message = false.
Proof.
  intros Hs Hi Hb Hout _. eexists. split; [| repeat split; reflexivity].
  exact (api_generate_bad_batch_size w d seed batch_index batch_size Hs Hi Hb Hout).
Qed.

Lemma api_generate_checks_batch_size_first_witness :
  exists message,
    App.api_generate (Sample.database Sample.two_rows)
        (OK (PDict (<[ "batch_size" := PInt 0 ]> (<[ "seed" := PInt (-1) ]> ∅))))
      = (OK (400, PDict {[ "error" := PStr message ]}), []) /\
    message = "Batch size must be between 1 and 100" /\
    contains "Batch size" message = true /\
    contains "Seed" message = false /\ contains "seed" message = false.
Proof.
  apply (api_generate_checks_batch_size_first _ _ (-1) 0 0);
    [reflexivity | reflexivity | reflexivity
    | unfold batch_size_in_range; lia | unfold seed_in_range; lia].
Defined.

(** ** The loop over the generated rows *)

Lemma for_each_OK {A B} (f : A -> result B) xs ys :
  for_each f xs = OK ys <-> Forall2 (fun x y => f x = OK y) xs ys.
Proof.
  revert ys. induction xs as [| x xs IH]; intros ys; simpl.
  - split.
    + intros [= <-]. constructor.
    + intros H. inversion H. reflexivity.
  - split.
    + destruct (f x) as [y | e] eqn:Hx; simpl; [| discriminate].
      destruct (for_each f xs) as [ys' | e] eqn:Hxs; simpl; [| discriminate].
      intros [= <-]. constructor; [assumption |]. apply IH. reflexivity.
    + intros H. inversion H as [| x' y xs' ys' Hx Hxs]; subst.
      rewrite Hx. simpl. apply IH in Hxs. rewrite Hxs. reflexivity.
Qed.

Lemma for_each_Raise {A B} (f : A -> result B) xs x :
  x ∈ xs -> (exists e, f x = Raise e) -> exists e, for_each f xs = Raise e.
Proof.
  intros Hin [e He]. induction xs as [| x' xs IH]; [inversion Hin |].
  simpl. destruct (f x') as [y | e'] eqn:Hx'; simpl; [| eauto].
  apply elem_of_cons in Hin as [-> | Hin]; [congruence |].
  destruct (IH Hin) as [e'' ->]. simpl. eauto.
Qed.

Lemma round_coordinates_OK (r : runtime) (user user' : gmap string pyval) :
  App.round_coordinates r user = OK user' <-> rounded r user user'.
Proof.
  unfold App.round_coordinates, rounded, getitem. split.
  - destruct (user !! "latitude") as [lat |] eqn:Hlat; simpl; [| discriminate].
    destruct (round r lat 6) as [lat' | e] eqn:Hrlat; simpl; [| discriminate].
    rewrite lookup_insert_ne by discriminate.
    destruct (user !! "longitude") as [lon |] eqn:Hlon; simpl; [| discriminate].
    destruct (round r lon 6) as [lon' | e] eqn:Hrlon; simpl; [| discriminate].
    intros [= <-]. exists lat, lon, lat', lon'. auto.
  - intros (lat & lon & lat' & lon' & Hlat & Hlon & Hrlat & Hrlon & ->).
    rewrite Hlat. simpl. rewrite Hrlat. simpl.
    rewrite lookup_insert_ne by discriminate.
    rewrite Hlon. simpl. rewrite Hrlon. reflexivity.
Qed.

Lemma round_coordinates_KeyError (r : runtime) (user : gmap string pyval) :
  user !! "latitude" = None \/ user !! "longitude" = None ->
  exists e, App.round_coordinates r user = Raise e.
Proof.
  unfold App.round_coordinates, getitem. intros [Hlat | Hlon].
  - rewrite Hlat. simpl. eauto.
  - destruct (user !! "latitude") as [lat |]; simpl; [| eauto].
    destruct (round r lat 6) as [lat' | e]; simpl; [| eauto].
    rewrite lookup_insert_ne by discriminate. rewrite Hlon. simpl. eauto.
Qed.

(** ** [api_generate] past the range checks *)

Lemma api_generate_valid (w : App.env) (d : gmap string pyval) seed batch_index batch_size :
  int_field w d "seed" 12345 = OK seed ->
  int_field w d "batch_index" 0 = OK batch_index ->
  int_field w d "batch_size" 10 = OK batch_size ->
  batch_size_in_range batch_size ->
  seed_in_range seed ->
  App.api_generate w (OK (PDict d)) =
    match App.generate_users w (locale_field d) seed batch_index batch_size with
    | (OK users, t) =>
        match for_each (App.round_coordinates (App.rt w)) users with
        | OK users' =>
            (OK (200, App.generated_body w users' (locale_field d) seed batch_index batch_size), t)
        | Raise e => (OK (500, App.json_error (str (App.rt w) e)), t)
        end
    | (Raise e, t) => (OK (500, App.json_error (str (App.rt w) e)), t)
    end.
Proof.
  intros Hs Hi Hb Hbr Hsr. unfold App.api_generate.
  rewrite (api_generate_try_parsed w d seed batch_index batch_size Hs Hi Hb).
  rewrite (in_batch_range _ Hbr), (in_seed_range _ Hsr).
  destruct (App.generate_users w (locale_field d) seed batch_index batch_size)
    as [[users | e] t]; simpl; [| rewrite app_nil_r; reflexivity].
  destruct (for_each (App.round_coordinates (App.rt w)) users) as [users' | e];
    simpl; rewrite !app_nil_r; reflexivity.
Qed.

(** ** Generation *)




(** C10: past validation, a row of the stored procedure without
    [latitude] or without [longitude] makes the handler answer 500: the
    loop's key lookup raises, or the loop has raised on an earlier row,
    and the [except] clause reports the exception.  Both coordinates are
    thus mandatory columns of every generated user. *)
Theorem api_generate_needs_coordinates
    (w : App.env) (d : gmap string pyval) (seed batch_index batch_size : Z)
    (users : list (gmap string pyval)) (t : list App.event) (user : gmap string pyval) :
  int_field w d "seed" 12345 = OK seed ->
  int_field w d "batch_index" 0 = OK batch_index ->
  int_field w d "batch_size" 10 = OK batch_size ->
  batch_size_in_range batch_size ->
  seed_in_range seed ->
  App.generate_users w (locale_field d) seed batch_index batch_size = (OK users, t) ->
  user ∈ users ->
  user !! "latitude" = None \/ user !! "longitude" = None ->
  exists e,
    App.api_generate w (OK (PDict d))
      = (OK (500, PDict {[ "error" := PStr (str (App.rt w) e) ]}), t).
Proof.
  intros Hs Hi Hb Hbr Hsr Hgen Hin Hmissing.
  destruct (for_each_Raise (App.round_coordinates (App.rt w)) users user Hin
              (round_coordinates_KeyError (App.rt w) user Hmissing)) as [e He].
  exists e.
  rewrite (api_generate_valid w d seed batch_index batch_size Hs Hi Hb Hbr Hsr).
  rewrite Hgen, He. reflexivity.
Qed.

Lemma api_generate_needs_coordinates_witness :
  exists e,
    App.api_generate (Sample.database (Sample.two_rows ++ [Sample.row_without_latitude]))
        (OK (PDict (<[ "batch_size" := PInt 3 ]> ∅)))
      = (OK (500, PDict {[ "error" := PStr (str Sample.builtins e) ]}),
         [App.Connect "postgresql://localhost/fake"; App.Cursor;
          App.Execute App.generate_fake_users_sql [PStr "en_US"; PInt 12345; PInt 0; PInt 3];
          App.Fetchall; App.CursorClose; App.ConnectionClose]).
Proof.
  apply (api_generate_needs_coordinates
           (Sample.database (Sample.two_rows ++ [Sample.row_without_latitude]))
           (<[ "batch_size" := PInt 3 ]> ∅) 12345 0 3
           (Sample.two_rows ++ [Sample.row_without_latitude]) _
           Sample.row_without_latitude).
  - reflexivity.
  - reflexivity.
  - reflexivity.
  - unfold batch_size_in_range. lia.
  - unfold seed_in_range. lia.
  - reflexivity.
  - apply elem_of_app. right. apply list_elem_of_singleton. reflexivity.
  - left. reflexivity.
Defined.

(** ** Failures *)

Lemma api_generate_try_unreadable_body (w : App.env) (e : exn) :
  App.api_generate_try w (Raise e) = (Raise e, []).
Proof. reflexivity. Qed.

Lemma api_generate_try_no_object (w : App.env) (data : pyval) :
  (forall d, data <> PDict d) ->
  App.api_generate_try w (OK data) = (Raise (AttributeError (type_name data) "get"), []).
Proof.
  intros H. unfold App.api_generate_try. rewrite iobind_lift_OK.
  destruct data; try reflexivity. destruct (H d). reflexivity.
Qed.

Lemma api_generate_try_no_integer (w : App.env) (d : gmap string pyval) (e : exn) :
  int_field w d "seed" 12345 = Raise e \/
  (exists seed, int_field w d "seed" 12345 = OK seed /\
     (int_field w d "batch_index" 0 = Raise e \/
      exists batch_index, int_field w d "batch_index" 0 = OK batch_index /\
        int_field w d "batch_size" 10 = Raise e)) ->
  App.api_generate_try w (OK (PDict d)) = (Raise e, []).
Proof.
  unfold int_field.
  intros [Hs | (seed & Hs & [Hi | (batch_index & Hi & Hb)])];
    unfold App.api_generate_try;
    rewrite iobind_lift_OK; simpl get at 1; rewrite iobind_lift_OK.
  - rewrite Hs. reflexivity.
  - rewrite Hs, iobind_lift_OK, Hi. reflexivity.
  - rewrite Hs, iobind_lift_OK, Hi, iobind_lift_OK, Hb. reflexivity.
Qed.

Lemma api_generate_try_database_error
    (w : App.env) (d : gmap string pyval) seed batch_index batch_size (e : exn) t :
  int_field w d "seed" 12345 = OK seed ->
  int_field w d "batch_index" 0 = OK batch_index ->
  int_field w d "batch_size" 10 = OK batch_size ->
  batch_size_in_range batch_size ->
  seed_in_range seed ->
  App.generate_users w (locale_field d) seed batch_index batch_size = (Raise e, t) ->
  App.api_generate_try w (OK (PDict d)) = (Raise e, t).
Proof.
  intros Hs Hi Hb Hbr Hsr Hgen.
  rewrite (api_generate_try_parsed w d seed batch_index batch_size Hs Hi Hb).
  rewrite (in_batch_range _ Hbr), (in_seed_range _ Hsr), Hgen. reflexivity.
Qed.

(** C4: whatever exception the [try] block of [api_generate] raises (a
    database error, an unreadable or non-object body, a parameter
    [int()] rejects, a row without its coordinates), the handler answers
    500 with a body whose [error] is exactly [str(e)] of that exception.
    The two range failures raise nothing and are not among these. *)
Theorem api_generate_reports_exception
    (w : App.env) (request_json : result pyval) (e : exn) (t : list App.event) :
  App.api_generate_try w request_json = (Raise e, t) ->
  App.api_generate w request_json
    = (OK (500, PDict {[ "error" := PStr (str (App.rt w) e) ]}), t).
Proof.
  intros H. unfold App.api_generate. rewrite H. simpl. rewrite app_nil_r. reflexivity.
Qed.

Lemma api_generate_reports_exception_witness :
  App.api_generate Sample.database_down (OK (PDict ∅))
    = (OK (500, PDict {[ "error" := PStr "connection refused" ]}),
       [App.Connect "postgresql://localhost/fake"]).
Proof.
  apply (api_generate_reports_exception Sample.database_down (OK (PDict ∅))
           (LibraryError "OperationalError" "connection refused")).
  reflexivity.
Defined.

(** A 500 answer of [api_generate] always stems from an exception of the
    [try] block, and every other answer is the block's own. *)
Lemma api_generate_cases (w : App.env) (request_json : result pyval) :
  (exists e t, App.api_generate_try w request_json = (Raise e, t) /\
     App.api_generate w request_json = (OK (500, App.json_error (str (App.rt w) e)), t)) \/
  (exists status body t, App.api_generate_try w request_json = (OK (status, body), t) /\
     App.api_generate w request_json = (OK (status, body), t) /\
     (status = 200 \/ status = 400 /\ t = [])).
Proof.
  destruct (App.api_generate_try w request_json) as [[[status body] | e] t] eqn:Htry.
  - right. exists status, body, t. split; [reflexivity |].
    split; [unfold App.api_generate; rewrite Htry; reflexivity |].
    destruct request_json as [data | e]; [| discriminate Htry].
    destruct data; try discriminate Htry.
    destruct (int_field w d "seed" 12345) as [seed | e] eqn:Hs;
      [| rewrite (api_generate_try_no_integer w d e) in Htry by auto; discriminate Htry].
    destruct (int_field w d "batch_index" 0) as [batch_index | e] eqn:Hi;
      [| rewrite (api_generate_try_no_integer w d e) in Htry by eauto; discriminate Htry].
    destruct (int_field w d "batch_size" 10) as [batch_size | e] eqn:Hb;
      [| rewrite (api_generate_try_no_integer w d e) in Htry by eauto 10; discriminate Htry].
    rewrite (api_generate_try_parsed w d seed batch_index batch_size Hs Hi Hb) in Htry.
    destruct ((batch_size <? 1) || (batch_size >? 100));
      [injection Htry as <- <- <-; auto |].
    destruct ((seed <? 0) || (seed >? 2147483647));
      [injection Htry as <- <- <-; auto |].
    destruct (App.generate_users w (locale_field d) seed batch_index batch_size)
      as [[users | e] t0]; [| discriminate Htry].
    simpl in Htry.
    destruct (for_each (App.round_coordinates (App.rt w)) users); [| discriminate Htry].
    simpl in Htry. injection Htry as <- <- <-. auto.
  - left. exists e, t. split; [reflexivity |].
    unfold App.api_generate. rewrite Htry. simpl. rewrite app_nil_r. reflexivity.
Qed.

(** C5: a request that fails a range check is answered 400 before any
    call on the database: the trace of driver calls is empty, so no
    connection was opened and the stored procedure was not invoked. *)
Theorem api_generate_validates_before_database
    (w : App.env) (d : gmap string pyval) (seed batch_index batch_size : Z) :
  int_field w d "seed" 12345 = OK seed ->
  int_field w d "batch_index" 0 = OK batch_index ->
  int_field w d "batch_size" 10 = OK batch_size ->
  ~ batch_size_in_range batch_size \/ ~ seed_in_range seed ->
  exists message,
    App.api_generate w (OK (PDict d)) = (OK (400, PDict {[ "error" := PStr message ]}), []) /\
    (forall dsn, App.Connect dsn ∉ snd (App.api_generate w (OK (PDict d)))) /\
    (forall sql args, App.Execute sql args ∉ snd (App.api_generate w (OK (PDict d)))).
Proof.
  intros Hs Hi Hb Hout.
  assert (exists message,
    App.api_generate w (OK (PDict d)) = (OK (400, PDict {[ "error" := PStr message ]}), []))
    as [message Hm].
  { unfold App.api_generate.
    rewrite (api_generate_try_parsed w d seed batch_index batch_size Hs Hi Hb).
    destruct ((batch_size <? 1) || (batch_size >? 100)) eqn:Hbr; [eexists; reflexivity |].
    destruct Hout as [Hout | Hout].
    - rewrite (out_of_batch_range _ Hout) in Hbr. discriminate Hbr.
    - rewrite (out_of_seed_range _ Hout). eexists. reflexivity. }
  exists message. rewrite Hm. simpl. split; [reflexivity |].
  split; intros; apply not_elem_of_nil.
Qed.

Lemma api_generate_validates_before_database_witness :
  exists message,
    let request := OK (PDict (<[ "seed" := PInt (-1) ]> ∅)) in
    App.api_generate (Sample.database Sample.two_rows) request
      = (OK (400, PDict {[ "error" := PStr message ]}), []) /\
    (forall dsn, App.Connect dsn ∉ snd (App.api_generate (Sample.database Sample.two_rows) request)) /\
    (forall sql args,
       App.Execute sql args ∉ snd (App.api_generate (Sample.database Sample.two_rows) request)).
Proof.
  apply (api_generate_validates_before_database _ _ (-1) 0 10);
    [reflexivity | reflexivity | reflexivity | right; unfold seed_in_range; lia].
Defined.

(** ** Defaults of the request body *)




(** The handler reads the body through the four [get] calls only. *)
Lemma api_generate_try_ext (w : App.env) (d d' : gmap string pyval) :
  locale_field d = locale_field d' ->
  int_field w d "seed" 12345 = int_field w d' "seed" 12345 ->
  int_field w d "batch_index" 0 = int_field w d' "batch_index" 0 ->
  int_field w d "batch_size" 10 = int_field w d' "batch_size" 10 ->
  App.api_generate_try w (OK (PDict d)) = App.api_generate_try w (OK (PDict d')).
Proof.
  intros Hl Hs Hi Hb.
  destruct (int_field w d "seed" 12345) as [seed | e] eqn:Es;
    [| rewrite !(api_generate_try_no_integer w _ e) by auto; reflexivity].
  destruct (int_field w d "batch_index" 0) as [batch_index | e] eqn:Ei;
    [| rewrite !(api_generate_try_no_integer w _ e) by eauto; reflexivity].
  destruct (int_field w d "batch_size" 10) as [batch_size | e] eqn:Eb;
    [| rewrite !(api_generate_try_no_integer w _ e) by eauto 10; reflexivity].
  rewrite (api_generate_try_parsed w d seed batch_index batch_size) by assumption.
  rewrite (api_generate_try_parsed w d' seed batch_index batch_size) by auto.
  rewrite Hl. reflexivity.
Qed.

(** The only statement [generate_users] executes is the call of the
    stored procedure on its four arguments. *)
Lemma generate_users_executes (w : App.env) locale seed batch_index batch_size sql args :
  App.Execute sql args ∈ snd (App.generate_users w locale seed batch_index batch_size) ->
  sql = App.generate_fake_users_sql /\
  args = [locale; PInt seed; PInt batch_index; PInt batch_size].
Proof.
  unfold App.generate_users, App.get_db_connection, App.environ_getitem,
    App.iobind, App.call, App.lift, App.ret.
  destruct (App.environ w !! "DATABASE_URL"); simpl;
    [| intros H; inversion H].
  destruct (App.connect w s), (App.cursor w),
    (App.execute w App.generate_fake_users_sql
       [locale; PInt seed; PInt batch_index; PInt batch_size]),
    (App.fetchall w App.generate_fake_users_sql
       [locale; PInt seed; PInt batch_index; PInt batch_size]),
    (App.cursor_close w), (App.connection_close w); simpl;
    intros H; repeat (apply elem_of_cons in H as [H | H]; [try discriminate H |]);
    try (inversion H; fail); injection H as -> ->; auto.
Qed.

(** What a response of [api_generate] to a JSON object shows of the
    parameters it worked with. *)
Lemma api_generate_observed (w : App.env) (d : gmap string pyval) status body t :
  App.api_generate w (OK (PDict d)) = (OK (status, body), t) ->
  (status = 200 \/ exists sql args, App.Execute sql args ∈ t) ->
  exists seed batch_index batch_size,
    int_field w d "seed" 12345 = OK seed /\
    int_field w d "batch_index" 0 = OK batch_index /\
    int_field w d "batch_size" 10 = OK batch_size /\
    batch_size_in_range batch_size /\ seed_in_range seed /\
    (status = 200 ->
       exists users', body = App.generated_body w users' (locale_field d) seed batch_index batch_size) /\
    (forall sql args, App.Execute sql args ∈ t ->
       args = [locale_field d; PInt seed; PInt batch_index; PInt batch_size]).
Proof.
  intros Hresp Hused.
  destruct (int_field w d "seed" 12345) as [seed | e] eqn:Hs.
  2:{ unfold App.api_generate in Hresp.
      rewrite (api_generate_try_no_integer w d e) in Hresp by auto.
      injection Hresp as <- <- <-. destruct Hused as [H | (? & ? & H)]; [discriminate H | inversion H]. }
  destruct (int_field w d "batch_index" 0) as [batch_index | e] eqn:Hi.
  2:{ unfold App.api_generate in Hresp.
      rewrite (api_generate_try_no_integer w d e) in Hresp by eauto.
      injection Hresp as <- <- <-. destruct Hused as [H | (? & ? & H)]; [discriminate H | inversion H]. }
  destruct (int_field w d "batch_size" 10) as [batch_size | e] eqn:Hb.
  2:{ unfold App.api_generate in Hresp.
      rewrite (api_generate_try_no_integer w d e) in Hresp by eauto 10.
      injection Hresp as <- <- <-. destruct Hused as [H | (? & ? & H)]; [discriminate H | inversion H]. }
  exists seed, batch_index, batch_size.
  destruct (decide (batch_size_in_range batch_size)) as [Hbr | Hbr].
  2:{ rewrite (api_generate_bad_batch_size w d seed batch_index batch_size) in Hresp
        by assumption.
      injection Hresp as <- <- <-. destruct Hused as [H | (? & ? & H)]; [discriminate H | inversion H]. }
  destruct (decide (seed_in_range seed)) as [Hsr | Hsr].
  2:{ rewrite (api_generate_bad_seed w d seed batch_index batch_size) in Hresp
        by assumption.
      injection Hresp as <- <- <-. destruct Hused as [H | (? & ? & H)]; [discriminate H | inversion H]. }
  do 5 (split; [assumption || reflexivity |]).
  rewrite (api_generate_valid w d seed batch_index batch_size) in Hresp by assumption.
  pose proof (generate_users_executes w (locale_field d) seed batch_index batch_size) as Hex.
  destruct (App.generate_users w (locale_field d) seed batch_index batch_size)
    as [[users | e] t0]; simpl in Hex.
  - destruct (for_each (App.round_coordinates (App.rt w)) users) as [users' | e];
      injection Hresp as <- <- <-.
    + split; [eauto |]. intros sql args H. apply (Hex sql args H).
    + split; [discriminate |]. intros sql args H. apply (Hex sql args H).
  - injection Hresp as <- <- <-.
    split; [discriminate |]. intros sql args H. apply (Hex sql args H).
Qed.

Lemma api_generate_bad_request (w : App.env) (d : gmap string pyval) body t :
  App.api_generate w (OK (PDict d)) = (OK (400, body), t) ->
  exists seed batch_index batch_size,
    int_field w d "seed" 12345 = OK seed /\
    int_field w d "batch_index" 0 = OK batch_index /\
    int_field w d "batch_size" 10 = OK batch_size /\
    (~ batch_size_in_range batch_size /\
       body = App.json_error "Batch size must be between 1 and 100" \/
     batch_size_in_range batch_size /\ ~ seed_in_range seed /\
       body = App.json_error "Seed must be between 0 and 2147483647").
Proof.
  intros Hresp.
  destruct (int_field w d "seed" 12345) as [seed | e] eqn:Hs.
  2:{ unfold App.api_generate in Hresp.
      rewrite (api_generate_try_no_integer w d e) in Hresp by auto. discriminate Hresp. }
  destruct (int_field w d "batch_index" 0) as [batch_index | e] eqn:Hi.
  2:{ unfold App.api_generate in Hresp.
      rewrite (api_generate_try_no_integer w d e) in Hresp by eauto. discriminate Hresp. }
  destruct (int_field w d "batch_size" 10) as [batch_size | e] eqn:Hb.
  2:{ unfold App.api_generate in Hresp.
      rewrite (api_generate_try_no_integer w d e) in Hresp by eauto 10. discriminate Hresp. }
  exists seed, batch_index, batch_size. do 3 (split; [reflexivity |]).
  destruct (decide (batch_size_in_range batch_size)) as [Hbr | Hbr].
  2:{ rewrite (api_generate_bad_batch_size w d seed batch_index batch_size) in Hresp
        by assumption.
      injection Hresp as <- <-. auto. }
  destruct (decide (seed_in_range seed)) as [Hsr | Hsr].
  2:{ rewrite (api_generate_bad_seed w d seed batch_index batch_size) in Hresp
        by assumption.
      injection Hresp as <- <-. auto. }
  rewrite (api_generate_valid w d seed batch_index batch_size) in Hresp by assumption.
  destruct (App.generate_users w (locale_field d) seed batch_index batch_size)
    as [[users | e] t0]; [| discriminate Hresp].
  destruct (for_each (App.round_coordinates (App.rt w)) users); discriminate Hresp.
Qed.


(** The empty body on the sample database: all four defaults reach the
    stored procedure and come back in the answer. *)
Example api_generate_empty_body :
  exists body : gmap string pyval,
    App.api_generate (Sample.database Sample.two_rows) (OK (PDict ∅))
      = (OK (200, PDict body),
         [App.Connect "postgresql://localhost/fake"; App.Cursor;
          App.Execute App.generate_fake_users_sql [PStr "en_US"; PInt 12345; PInt 0; PInt 10];
          App.Fetchall; App.CursorClose; App.ConnectionClose]) /\
    body !! "locale" = Some (PStr "en_US") /\ body !! "seed" = Some (PInt 12345) /\
    body !! "batch_index" = Some (PInt 0) /\ body !! "batch_size" = Some (PInt 10).
Proof. eexists. split; [reflexivity |]. repeat split; reflexivity. Qed.

(** ** The health check *)

Lemma OK_unit (r : result unit) : (exists e, r = Raise e) \/ r = OK tt.
Proof. destruct r as [[] | e]; eauto. Qed.

(** C6: [health] looks up the connection string, opens a connection and
    executes [SELECT 1] on a cursor.  When every call returns, it answers
    200 with exactly [{status: "healthy", database: "connected"}];
    otherwise the first call that raises ends the check, and the answer
    is 500 with [status: "unhealthy"] and, under [error], [str(e)] of the
    exception raised. *)
Theorem health_reports_database (w : App.env) :
  (exists dsn,
     database_answers w dsn /\
     App.health w
       = (OK (200, PDict (<[ "status" := PStr "healthy" ]>
                         (<[ "database" := PStr "connected" ]> ∅))),
          [App.Connect dsn; App.Cursor; App.Execute "SELECT 1" [];
           App.CursorClose; App.ConnectionClose])) \/
  (exists e t,
     health_failure w e t /\
     (forall dsn, ~ database_answers w dsn) /\
     App.health w
       = (OK (500, PDict (<[ "status" := PStr "unhealthy" ]>
                         (<[ "error" := PStr (str (App.rt w) e) ]> ∅))), t)).
Proof.
  unfold App.health, App.health_try, App.get_db_connection, App.environ_getitem,
    health_failure, database_answers.
  destruct (App.environ w !! "DATABASE_URL") as [dsn |] eqn:Hurl.
  2:{ right. exists (KeyError "DATABASE_URL"), []. split; [auto |].
      split; [| reflexivity]. intros dsn (H & _). discriminate H. }
  rewrite iobind_lift_OK. unfold App.iobind, App.call, App.ret, App.try_except.
  destruct (OK_unit (App.connect w dsn)) as [[e Hc] | Hc]; rewrite Hc.
  { right. exists e, [App.Connect dsn]. split; [eauto 10 |].
    split; [| reflexivity]. intros dsn' (H & H' & _). congruence. }
  destruct (OK_unit (App.cursor w)) as [[e Hk] | Hk]; rewrite Hk.
  { right. exists e, [App.Connect dsn; App.Cursor]. split; [eauto 10 |].
    split; [| reflexivity]. intros dsn' (_ & _ & H & _). discriminate H. }
  destruct (OK_unit (App.execute w "SELECT 1" [])) as [[e Hx] | Hx]; rewrite Hx.
  { right. exists e, [App.Connect dsn; App.Cursor; App.Execute "SELECT 1" []].
    split; [eauto 15 |].
    split; [| reflexivity]. intros dsn' (_ & _ & _ & H & _). discriminate H. }
  destruct (OK_unit (App.cursor_close w)) as [[e Hcc] | Hcc]; rewrite Hcc.
  { right.
    exists e, [App.Connect dsn; App.Cursor; App.Execute "SELECT 1" []; App.CursorClose].
    split; [eauto 20 |].
    split; [| reflexivity]. intros dsn' (_ & _ & _ & _ & H & _). discriminate H. }
  destruct (OK_unit (App.connection_close w)) as [[e Hnc] | Hnc]; rewrite Hnc.
  { right.
    exists e, [App.Connect dsn; App.Cursor; App.Execute "SELECT 1" [];
               App.CursorClose; App.ConnectionClose].
    split; [eauto 25 |].
    split; [| reflexivity]. intros dsn' (_ & _ & _ & _ & _ & H). discriminate H. }
  left. exists dsn. split; [auto 10 |]. reflexivity.
Qed.

Example health_up :
  App.health (Sample.database []) = (OK (200, App.healthy_body),
    [App.Connect "postgresql://localhost/fake"; App.Cursor; App.Execute "SELECT 1" [];
     App.CursorClose; App.ConnectionClose]).
Proof. reflexivity. Qed.

Example health_down :
  App.health Sample.database_down
    = (OK (500, App.unhealthy_body "connection refused"),
       [App.Connect "postgresql://localhost/fake"]).
Proof. reflexivity. Qed.

(** ** The benchmark loop *)

(** With a driver that completes, the loop computes [measurements]: it
    reads the clock twice per count and appends one tuple, until a
    division raises. *)
Lemma for_count_measurements (w : Benchmark.env) (locale seed : pyval) :
  (forall h sql args, Benchmark.execute w h sql args = OK tt) ->
  (forall h, Benchmark.commit w h = OK tt) ->
  forall user_counts results s,
    fst (Benchmark.for_count w locale seed user_counts results s)
      = bind (measurements w (Benchmark.clock_reads s) user_counts)
          (fun ms => OK (results ++ ms)).
Proof.
  intros Hexecute Hcommit.
  induction user_counts as [| count rest IH]; intros results s.
  - simpl. rewrite app_nil_r. reflexivity.
  - simpl. unfold Benchmark.mbind at 1. simpl.
    unfold Benchmark.mbind at 1. simpl.
    unfold Benchmark.mbind at 1. simpl. rewrite Hexecute.
    unfold Benchmark.mbind at 1. simpl. rewrite Hcommit.
    unfold Benchmark.mbind at 1. simpl.
    unfold Benchmark.mbind at 1. unfold Benchmark.lift at 1.
    unfold measurement, elapsed_time, end_reading, start_reading.
    destruct (truediv count _) as [throughput | e]; simpl; [| reflexivity].
    unfold Benchmark.mbind at 1. simpl. rewrite IH. simpl.
    destruct (measurements w (S (S (Benchmark.clock_reads s))) rest) as [ms | e];
      simpl; [| reflexivity].
    rewrite <- app_assoc. reflexivity.
Qed.

Lemma run_benchmark_measurements (w : Benchmark.env) (user_counts : list Z)
    (locale seed : pyval) (s : Benchmark.state) :
  driver_completes w ->
  fst (Benchmark.run_benchmark w user_counts locale seed s)
    = measurements w (Benchmark.clock_reads s) user_counts.
Proof.
  intros (Hconnect & Hcursor & Hexecute & Hcommit & Hexit).
  unfold Benchmark.run_benchmark, Benchmark.with_connection, Benchmark.with_cursor.
  unfold Benchmark.mbind at 1. simpl. rewrite Hconnect.
  unfold Benchmark.mbind at 1. simpl. rewrite Hcursor.
  pose proof (for_count_measurements w locale seed Hexecute Hcommit user_counts []
    (Benchmark.emit Benchmark.Cursor
       (Benchmark.emit (Benchmark.Connect (Benchmark.DATABASE_URL w)) s))) as Hloop.
  destruct (Benchmark.for_count w locale seed user_counts [] _) as [r s'].
  simpl in Hloop. subst r.
  destruct (measurements w (Benchmark.clock_reads s) user_counts) as [ms | e]; simpl.
  - rewrite Hexit. reflexivity.
  - reflexivity.
Qed.

Lemma measurements_OK (w : Benchmark.env) (user_counts : list Z) :
  forall k,
    (forall i count, user_counts !! i = Some count ->
       exists m, measurement w (k + 2 * i) count = OK m) ->
    exists ms,
      measurements w k user_counts = OK ms /\
      length ms = length user_counts /\
      forall i count, user_counts !! i = Some count ->
        exists m, ms !! i = Some m /\ measurement w (k + 2 * i) count = OK m.
Proof.
  induction user_counts as [| count rest IH]; intros k H; simpl.
  - exists []. split; [reflexivity |]. split; [reflexivity |]. intros i c Hi. inversion Hi.
  - destruct (H 0%nat count eq_refl) as [m Hm].
    rewrite Nat.add_0_r in Hm. rewrite Hm. simpl.
    destruct (IH (S (S k))) as (ms & Hms & Hlen & Hlookup).
    { intros i c Hi. destruct (H (S i) c Hi) as [m' Hm'].
      exists m'. rewrite <- Hm'. f_equal. lia. }
    rewrite Hms. simpl. exists (m :: ms). split; [reflexivity |].
    split; [simpl; congruence |].
    intros [| i] c Hi; simpl in Hi.
    + injection Hi as <-. exists m. rewrite Nat.add_0_r. auto.
    + destruct (Hlookup i c Hi) as (m' & Hm1 & Hm2). exists m'. split; [exact Hm1 |].
      rewrite <- Hm2. f_equal. lia.
Qed.

(** C7, as stated, fails: [elapsed] is the difference of two readings of
    the wall clock, which may be set back between them.  With the
    readings 2.0 and then 1.0 around the only call, [run_benchmark([10])]
    returns [[(10, -1.0, -10.0)]]: the generation call completed and the
    elapsed time is negative. *)
Lemma wall_clock_set_back :
  let w := Sample.bench [2; 1]%float in
  driver_completes w /\
  fst (Benchmark.run_benchmark w [10] (PStr "en_US") (PInt 12345) Benchmark.initial)
    = OK [(10, (-1)%float, (-10)%float)] /\
  (0 <=? -1)%float = false /\
  ~ exists results,
      fst (Benchmark.run_benchmark w [10] (PStr "en_US") (PInt 12345) Benchmark.initial)
        = OK results /\
      Forall (fun r : Z * float * float => (0 <=? snd (fst r))%float = true) results.
Proof.
  intros w. split; [repeat split; reflexivity |].
  split; [reflexivity |]. split; [reflexivity |].
  intros (results & Hrun & Hall). vm_compute in Hrun. injection Hrun as <-.
  inversion Hall as [| r rs Hr _]. vm_compute in Hr. discriminate Hr.
Qed.

(** Two readings that coincide: the division raises and no result list
    is returned. *)
Example clock_stands_still :
  fst (Benchmark.run_benchmark (Sample.bench [5; 5]%float) [10]
         (PStr "en_US") (PInt 12345) Benchmark.initial)
    = Raise ZeroDivisionError.
Proof. reflexivity. Qed.

(** C7, amended: for every list of integer batch sizes, when every call
    on the driver completes and every division [count / elapsed] is
    defined (the count converts to a [float] and the elapsed time is not
    zero), [run_benchmark] returns one tuple per batch size, in the order
    of the input, each [(count, elapsed, throughput)] with [elapsed] the
    clock reading after the call minus the reading before it and
    [throughput] equal to [count / elapsed]; [elapsed] is not below zero
    whenever the reading before the call is finite and not above the
    reading after it. *)
Theorem run_benchmark_results
    (w : Benchmark.env) (user_counts : list Z) (locale seed : pyval)
    (s : Benchmark.state) :
  driver_completes w ->
  (forall (i : nat) (count : Z), user_counts !! i = Some count ->
     (exists c, float_of_int count = OK c) /\
     (elapsed_time w (Benchmark.clock_reads s + 2 * i) =? 0)%float = false) ->
  exists results : list (Z * float * float),
    fst (Benchmark.run_benchmark w user_counts locale seed s) = OK results /\
    length results = length user_counts /\
    forall (i : nat) (count : Z), user_counts !! i = Some count ->
      exists (elapsed throughput c : float),
        results !! i = Some (count, elapsed, throughput) /\
        elapsed = (end_reading w (Benchmark.clock_reads s + 2 * i)
                   - start_reading w (Benchmark.clock_reads s + 2 * i))%float /\
        float_of_int count = OK c /\
        throughput = (c / elapsed)%float /\
        truediv count elapsed = OK throughput /\
        (is_finite (start_reading w (Benchmark.clock_reads s + 2 * i)) = true ->
         (start_reading w (Benchmark.clock_reads s + 2 * i)
            <=? end_reading w (Benchmark.clock_reads s + 2 * i))%float = true ->
         (0 <=? elapsed)%float = true).
Proof.
  intros Hdriver Hdefined.
  rewrite (run_benchmark_measurements w user_counts locale seed s Hdriver).
  assert (forall i count, user_counts !! i = Some count ->
      exists c,
        float_of_int count = OK c /\
        measurement w (Benchmark.clock_reads s + 2 * i) count
          = OK (count, elapsed_time w (Benchmark.clock_reads s + 2 * i),
                (c / elapsed_time w (Benchmark.clock_reads s + 2 * i))%float) /\
        truediv count (elapsed_time w (Benchmark.clock_reads s + 2 * i))
          = OK (c / elapsed_time w (Benchmark.clock_reads s + 2 * i))%float) as Hm.
  { intros i count Hi. destruct (Hdefined i count Hi) as [[c Hc] Hnz].
    exists c. split; [exact Hc |].
    unfold measurement, truediv. rewrite Hc. cbn [bind]. rewrite Hnz. cbn [bind]. auto. }
  destruct (measurements_OK w user_counts (Benchmark.clock_reads s)) as
    (ms & Hms & Hlen & Hlookup).
  { intros i count Hi. destruct (Hm i count Hi) as (c & _ & Hc & _). eauto. }
  exists ms. split; [exact Hms |]. split; [exact Hlen |].
  intros i count Hi.
  destruct (Hlookup i count Hi) as (m & Hmi & Hmeas).
  destruct (Hm i count Hi) as (c & Hc & Hmeas' & Hdiv).
  rewrite Hmeas' in Hmeas. injection Hmeas as <-.
  exists (elapsed_time w (Benchmark.clock_reads s + 2 * i)),
    (c / elapsed_time w (Benchmark.clock_reads s + 2 * i))%float, c.
  split; [exact Hmi |]. split; [reflexivity |]. split; [exact Hc |].
  split; [reflexivity |]. split; [exact Hdiv |].
  intros Hfin Hle. apply sub_nonneg; assumption.
Qed.

Lemma run_benchmark_results_witness :
  let w := Sample.bench [100; 100.5; 101; 103]%float in
  exists results : list (Z * float * float),
    fst (Benchmark.run_benchmark w [10000; 50000] (PStr "en_US") (PInt 12345)
           Benchmark.initial) = OK results /\
    length results = 2%nat /\
    forall (i : nat) (count : Z), [10000; 50000] !! i = Some count ->
      exists (elapsed throughput c : float),
        results !! i = Some (count, elapsed, throughput) /\
        elapsed = (end_reading w (0 + 2 * i) - start_reading w (0 + 2 * i))%float /\
        float_of_int count = OK c /\
        throughput = (c / elapsed)%float /\
        truediv count elapsed = OK throughput /\
        (is_finite (start_reading w (0 + 2 * i)) = true ->
         (start_reading w (0 + 2 * i) <=? end_reading w (0 + 2 * i))%float = true ->
         (0 <=? elapsed)%float = true).
Proof.
  intros w.
  apply (run_benchmark_results w [10000; 50000] (PStr "en_US") (PInt 12345)
           Benchmark.initial).
  - repeat split; reflexivity.
  - intros [| [| i]] count Hi; simpl in Hi; inversion Hi; subst;
      (split; [eexists; reflexivity | reflexivity]).
Defined.

Example run_benchmark_two_sizes :
  fst (Benchmark.run_benchmark (Sample.bench [100; 100.5; 101; 103]%float)
         [10000; 50000] (PStr "en_US") (PInt 12345) Benchmark.initial)
    = OK [(10000, 0.5%float, 20000%float); (50000, 2%float, 25000%float)].
Proof. reflexivity. Qed.

(** * Further properties of the code *)

(** ** One round trip per call *)

(** The outcomes of the calls of a round trip, one after the other. *)
Ltac round_trip_cases w sql args :=
  unfold App.get_db_connection, App.environ_getitem,
    App.iobind, App.call, App.lift, App.ret;
  destruct (App.environ w !! "DATABASE_URL") as [?dsn |]; simpl;
  [ destruct (App.connect w dsn) as [[] | ?e]; simpl;
    [ destruct (App.cursor w) as [[] | ?e]; simpl;
      [ destruct (App.execute w sql args) as [[] | ?e]; simpl;
        [ destruct (App.fetchall w sql args) as [?rows | ?e]; simpl;
          [ destruct (App.cursor_close w) as [[] | ?e]; simpl;
            [ destruct (App.connection_close w) as [[] | ?e]; simpl | ] | ] | ] | ] | ] | ].

Lemma generate_users_OK (w : App.env) locale seed batch_index batch_size users t :
  App.generate_users w locale seed batch_index batch_size = (OK users, t) ->
  exists dsn, App.environ w !! "DATABASE_URL" = Some dsn /\
    t = round_trip dsn App.generate_fake_users_sql
          (procedure_args locale seed batch_index batch_size) /\
    App.fetchall w App.generate_fake_users_sql
      (procedure_args locale seed batch_index batch_size) = OK users.
Proof.
  unfold procedure_args, round_trip, App.generate_users.
  round_trip_cases w App.generate_fake_users_sql
    [locale; PInt seed; PInt batch_index; PInt batch_size];
    intros [=]; subst; eauto.
Qed.


(** X1: [generate_users] makes at most one round trip: whatever the
    driver answers, its calls are an initial part of connect, cursor,
    the stored-procedure call with the four parameters, fetchall and the
    two closes.  It returns rows only after the whole round trip, and
    then exactly the rows [fetchall] gave. *)
Theorem generate_users_round_trip
    (w : App.env) (locale : pyval) (seed batch_index batch_size : Z) :
  let args := procedure_args locale seed batch_index batch_size in
  let run := App.generate_users w locale seed batch_index batch_size in
  match App.environ w !! "DATABASE_URL" with
  | None => run = (Raise (KeyError "DATABASE_URL"), [])
  | Some dsn =>
      snd run `prefix_of` round_trip dsn App.generate_fake_users_sql args /\
      forall rows, fst run = OK rows ->
        snd run = round_trip dsn App.generate_fake_users_sql args /\
        App.fetchall w App.generate_fake_users_sql args = OK rows
  end.
Proof.
  unfold procedure_args, round_trip, App.generate_users.
  round_trip_cases w App.generate_fake_users_sql
    [locale; PInt seed; PInt batch_index; PInt batch_size];
    try reflexivity;
    (split; [by eexists | intros ? [=]; subst; auto]).
Qed.

(** X2: [generate_users] has no [finally]: when it raises after the
    connection was opened, by anything but [conn.close()] itself, the
    connection is left open. *)
Theorem generate_users_leaves_connection_open
    (w : App.env) (locale : pyval) (seed batch_index batch_size : Z)
    (dsn : string) (e : exn) (t : list App.event) :
  App.environ w !! "DATABASE_URL" = Some dsn ->
  App.connect w dsn = OK tt ->
  App.connection_close w = OK tt ->
  App.generate_users w locale seed batch_index batch_size = (Raise e, t) ->
  App.Connect dsn ∈ t /\ App.ConnectionClose ∉ t.
Proof.
  intros Hurl Hconnect Hclose. unfold App.generate_users.
  unfold App.get_db_connection, App.environ_getitem,
    App.iobind, App.call, App.lift, App.ret.
  rewrite Hurl. simpl. rewrite Hconnect, Hclose. simpl.
  destruct (App.cursor w) as [[] | e1]; simpl.
  2:{ intros [= <- <-]. split; [set_solver |].
      intros H. repeat (apply elem_of_cons in H as [H | H]; [discriminate H |]).
      inversion H. }
  destruct (App.execute w _ _) as [[] | e2]; simpl.
  2:{ intros [= <- <-]. split; [set_solver |].
      intros H. repeat (apply elem_of_cons in H as [H | H]; [discriminate H |]).
      inversion H. }
  destruct (App.fetchall w _ _) as [rows | e3]; simpl.
  2:{ intros [= <- <-]. split; [set_solver |].
      intros H. repeat (apply elem_of_cons in H as [H | H]; [discriminate H |]).
      inversion H. }
  destruct (App.cursor_close w) as [[] | e4]; simpl.
  2:{ intros [= <- <-]. split; [set_solver |].
      intros H. repeat (apply elem_of_cons in H as [H | H]; [discriminate H |]).
      inversion H. }
  intros [=].
Qed.

Lemma generate_users_leaves_connection_open_witness :
  App.Connect "postgresql://localhost/fake"
    ∈ [App.Connect "postgresql://localhost/fake"; App.Cursor;
       App.Execute App.generate_fake_users_sql [PStr "en_US"; PInt 42; PInt 0; PInt 5]] /\
  App.ConnectionClose
    ∉ [App.Connect "postgresql://localhost/fake"; App.Cursor;
       App.Execute App.generate_fake_users_sql [PStr "en_US"; PInt 42; PInt 0; PInt 5]].
Proof.
  apply (generate_users_leaves_connection_open Scenario.failing_statement
           (PStr "en_US") 42 0 5 "postgresql://localhost/fake"
           (LibraryError "UndefinedFunction" "function generate_fake_users does not exist"));
    reflexivity.
Defined.

(** ** The index page *)

(** X3: [get_locales] runs the fixed, parameterless, ordered query in
    one round trip and returns the rows of [fetchall] as they are: no
    row is dropped, changed or reordered. *)
Theorem get_locales_round_trip (w : App.env) :
  match App.environ w !! "DATABASE_URL" with
  | None => App.get_locales w = (Raise (KeyError "DATABASE_URL"), [])
  | Some dsn =>
      snd (App.get_locales w) `prefix_of` round_trip dsn App.locales_sql [] /\
      forall locales, fst (App.get_locales w) = OK locales ->
        snd (App.get_locales w) = round_trip dsn App.locales_sql [] /\
        App.fetchall w App.locales_sql [] = OK locales
  end.
Proof.
  unfold round_trip, App.get_locales.
  round_trip_cases w App.locales_sql (@nil pyval);
    try reflexivity;
    (split; [by eexists | intros ? [=]; subst; auto]).
Qed.



Example index_page :
  App.index (Sample.database Scenario.locale_rows) Scenario.pages
    = (OK "index.html: 2 locales",
       round_trip "postgresql://localhost/fake" App.locales_sql []).
Proof. reflexivity. Qed.

Example index_database_down :
  App.index Sample.database_down Scenario.pages
    = (Raise (LibraryError "OperationalError" "connection refused"),
       [App.Connect "postgresql://localhost/fake"]).
Proof. reflexivity. Qed.

(** ** What [api_generate] answers *)

Lemma api_generate_OK (w : App.env) (d : gmap string pyval) body t :
  App.api_generate w (OK (PDict d)) = (OK (200, body), t) ->
  exists seed batch_index batch_size users users',
    int_field w d "seed" 12345 = OK seed /\
    int_field w d "batch_index" 0 = OK batch_index /\
    int_field w d "batch_size" 10 = OK batch_size /\
    batch_size_in_range batch_size /\ seed_in_range seed /\
    App.generate_users w (locale_field d) seed batch_index batch_size = (OK users, t) /\
    for_each (App.round_coordinates (App.rt w)) users = OK users' /\
    body = App.generated_body w users' (locale_field d) seed batch_index batch_size.
Proof.
  intros Hresp.
  destruct (api_generate_observed w d 200 body t Hresp) as
    (seed & batch_index & batch_size & Hs & Hi & Hb & Hbr & Hsr & _); [auto |].
  exists seed, batch_index, batch_size.
  rewrite (api_generate_valid w d seed batch_index batch_size Hs Hi Hb Hbr Hsr) in Hresp.
  destruct (App.generate_users w (locale_field d) seed batch_index batch_size)
    as [[users | e] t0]; [| discriminate Hresp].
  destruct (for_each (App.round_coordinates (App.rt w)) users) as [users' | e] eqn:Hloop;
    [| discriminate Hresp].
  injection Hresp as <- <-. exists users, users'. auto 10.
Qed.

(** X5: [api_generate] answers every request, with 200, 400 or 500 and
    nothing else.  A 200 body has exactly the six keys [users],
    [locale], [seed], [batch_index], [batch_size] and [timestamp]; a 400
    or 500 body has the single key [error], holding a string. *)
Theorem api_generate_answers (w : App.env) (request_json : result pyval) :
  exists status body t,
    App.api_generate w request_json = (OK (status, PDict body), t) /\
    (status = 200 /\ dom body = generated_keys \/
     (status = 400 \/ status = 500) /\ exists message, body = {[ "error" := PStr message ]}).
Proof.
  destruct (api_generate_cases w request_json) as
    [(e & t & _ & H) | (status & body & t & Htry & H & [-> | [-> ->]])].
  - exists 500, {[ "error" := PStr (str (App.rt w) e) ]}, t. split; [exact H |]. eauto.
  - destruct request_json as [[| | | | | | d] | e]; try discriminate Htry.
    destruct (api_generate_OK w d body t H) as
      (seed & batch_index & batch_size & users & users' & _ & _ & _ & _ & _ & _ & _ & ->).
    eexists 200, _, t. split; [exact H |]. left. split; [reflexivity |].
    unfold generated_keys. rewrite !dom_insert_L, dom_empty_L. set_solver.
  - destruct request_json as [[| | | | | | d] | e]; try discriminate Htry.
    destruct (api_generate_bad_request w d body [] H) as
      (seed & batch_index & batch_size & _ & _ & _ & [[_ ->] | (_ & _ & ->)]);
      eexists 400, _, []; (split; [exact H |]); right; eauto.
Qed.

(** X6: a JSON object is answered 400 exactly when its three numeric
    fields pass [int()] and [batch_size] lies outside [1, 100] or [seed]
    outside [0, 2147483647]: both bounds of both ranges are accepted,
    and no other request is ever answered 400. *)
Theorem api_generate_bad_request_iff (w : App.env) (d : gmap string pyval) :
  (exists body t, App.api_generate w (OK (PDict d)) = (OK (400, body), t)) <->
  (exists seed batch_index batch_size,
     int_field w d "seed" 12345 = OK seed /\
     int_field w d "batch_index" 0 = OK batch_index /\
     int_field w d "batch_size" 10 = OK batch_size /\
     (batch_size < 1 \/ 100 < batch_size \/ seed < 0 \/ 2147483647 < seed)).
Proof.
  split.
  - intros (body & t & H).
    destruct (api_generate_bad_request w d body t H) as
      (seed & batch_index & batch_size & Hs & Hi & Hb & Hcase).
    exists seed, batch_index, batch_size. do 3 (split; [assumption |]).
    unfold batch_size_in_range, seed_in_range in Hcase. lia.
  - intros (seed & batch_index & batch_size & Hs & Hi & Hb & Hout).
    destruct (decide (batch_size_in_range batch_size)) as [Hbr | Hbr].
    + do 2 eexists.
      apply (api_generate_bad_seed w d seed batch_index batch_size Hs Hi Hb Hbr).
      unfold batch_size_in_range, seed_in_range in *. lia.
    + do 2 eexists.
      apply (api_generate_bad_batch_size w d seed batch_index batch_size Hs Hi Hb Hbr).
Qed.

(** X7: the numeric fields are read through [int()], and the handler
    sees nothing else of them: replacing the value of [seed],
    [batch_index] or [batch_size] by the integer [int()] returns for it
    (a numeric string by its number, a float by its truncation, a
    boolean by 0 or 1) changes neither the response nor the driver
    calls. *)
Theorem api_generate_reads_integers
    (w : App.env) (d : gmap string pyval) (key : string) (v : pyval) (z : Z) :
  key = "seed" \/ key = "batch_index" \/ key = "batch_size" ->
  int (App.rt w) v = OK z ->
  App.api_generate w (OK (PDict (<[ key := v ]> d)))
    = App.api_generate w (OK (PDict (<[ key := PInt z ]> d))).
Proof.
  intros Hkey Hint. unfold App.api_generate. f_equal.
  apply api_generate_try_ext; unfold locale_field, int_field; simpl;
    destruct Hkey as [-> | [-> | ->]];
    rewrite ?lookup_insert_eq, ?lookup_insert_ne by discriminate;
    simpl; rewrite ?Hint; reflexivity.
Qed.

Lemma api_generate_reads_integers_witness :
  App.api_generate (Sample.database Sample.two_rows)
      (OK (PDict (<[ "batch_size" := PFloat 100.5 ]> (<[ "seed" := PStr "7" ]> ∅))))
    = App.api_generate (Sample.database Sample.two_rows)
        (OK (PDict (<[ "batch_size" := PInt 100 ]> (<[ "seed" := PStr "7" ]> ∅)))).
Proof.
  apply (api_generate_reads_integers (Sample.database Sample.two_rows)
           (<[ "seed" := PStr "7" ]> ∅) "batch_size" (PFloat 100.5) 100);
    [right; right; reflexivity | reflexivity].
Defined.

(** X8: a body that cannot be read, or that is JSON but no object (a
    list, a string, a number, [null]), is answered 500 without any call
    on the database: [request.json] or [data.get] raises inside the
    [try]. *)
Theorem api_generate_without_object (w : App.env) (request_json : result pyval) :
  (forall d, request_json <> OK (PDict d)) ->
  exists e,
    (request_json = Raise e \/
     exists data, request_json = OK data /\ e = AttributeError (type_name data) "get") /\
    App.api_generate w request_json
      = (OK (500, PDict {[ "error" := PStr (str (App.rt w) e) ]}), []).
Proof.
  intros Hno. destruct request_json as [data | e].
  - exists (AttributeError (type_name data) "get").
    split; [eauto |]. unfold App.api_generate.
    rewrite api_generate_try_no_object; [reflexivity |].
    intros d ->. apply (Hno d). reflexivity.
  - exists e. split; [auto | reflexivity].
Qed.

Lemma api_generate_without_object_witness :
  exists e,
    (OK (PList [PInt 1; PInt 2]) = Raise e \/
     exists data, OK (PList [PInt 1; PInt 2]) = OK data /\
                  e = AttributeError (type_name data) "get") /\
    App.api_generate (Sample.database Sample.two_rows) (OK (PList [PInt 1; PInt 2]))
      = (OK (500, PDict {[ "error" := PStr (str Sample.builtins e) ]}), []).
Proof.
  apply (api_generate_without_object (Sample.database Sample.two_rows)
           (OK (PList [PInt 1; PInt 2]))).
  intros d H. discriminate H.
Defined.

(** X9: the conversions come first and in the order [seed],
    [batch_index], [batch_size]: the first of the three that [int()]
    rejects decides the answer, a 500 with that exception, whatever the
    later fields hold and even when a value already converted is out of
    range; the database is not called. *)
Theorem api_generate_conversion_first
    (w : App.env) (d : gmap string pyval) (e : exn) :
  int_field w d "seed" 12345 = Raise e \/
  (exists seed, int_field w d "seed" 12345 = OK seed /\
     (int_field w d "batch_index" 0 = Raise e \/
      exists batch_index, int_field w d "batch_index" 0 = OK batch_index /\
        int_field w d "batch_size" 10 = Raise e)) ->
  App.api_generate w (OK (PDict d))
    = (OK (500, PDict {[ "error" := PStr (str (App.rt w) e) ]}), []).
Proof.
  intros H. unfold App.api_generate.
  rewrite (api_generate_try_no_integer w d e H). reflexivity.
Qed.

Lemma api_generate_conversion_first_witness :
  App.api_generate (Sample.database Sample.two_rows)
      (OK (PDict (<[ "seed" := PInt (-1) ]> (<[ "batch_index" := PList [] ]>
                 (<[ "batch_size" := PStr "many" ]> ∅)))))
    = (OK (500, PDict {[ "error" := PStr (str Sample.builtins (TypeError "int" "list")) ]}), []).
Proof.
  apply (api_generate_conversion_first (Sample.database Sample.two_rows)
           (<[ "seed" := PInt (-1) ]> (<[ "batch_index" := PList [] ]>
            (<[ "batch_size" := PStr "many" ]> ∅)))
           (TypeError "int" "list")).
  right. exists (-1). split; [reflexivity |]. left. reflexivity.
Defined.

(** X10: without [DATABASE_URL] in the environment no handler reaches
    the driver: [get_locales] raises [KeyError], [health] answers 500
    "unhealthy" and a valid [api_generate] request is answered 500, each
    with [str] of the [KeyError] and without a single driver call. *)
Theorem database_url_is_required (w : App.env) :
  App.environ w !! "DATABASE_URL" = None ->
  App.get_locales w = (Raise (KeyError "DATABASE_URL"), []) /\
  App.health w
    = (OK (500, App.unhealthy_body (str (App.rt w) (KeyError "DATABASE_URL"))), []) /\
  forall (d : gmap string pyval) seed batch_index batch_size,
    int_field w d "seed" 12345 = OK seed ->
    int_field w d "batch_index" 0 = OK batch_index ->
    int_field w d "batch_size" 10 = OK batch_size ->
    batch_size_in_range batch_size ->
    seed_in_range seed ->
    App.api_generate w (OK (PDict d))
      = (OK (500, App.json_error (str (App.rt w) (KeyError "DATABASE_URL"))), []).
Proof.
  intros Hurl. split; [| split].
  - unfold App.get_locales, App.get_db_connection, App.environ_getitem.
    rewrite Hurl. reflexivity.
  - unfold App.health, App.health_try, App.get_db_connection, App.environ_getitem.
    rewrite Hurl. reflexivity.
  - intros d seed batch_index batch_size Hs Hi Hb Hbr Hsr.
    rewrite (api_generate_valid w d seed batch_index batch_size Hs Hi Hb Hbr Hsr).
    unfold App.generate_users, App.get_db_connection, App.environ_getitem.
    rewrite Hurl. reflexivity.
Qed.

Lemma database_url_is_required_witness :
  App.get_locales Scenario.unconfigured = (Raise (KeyError "DATABASE_URL"), []) /\
  App.health Scenario.unconfigured
    = (OK (500, App.unhealthy_body (str Sample.builtins (KeyError "DATABASE_URL"))), []) /\
  forall (d : gmap string pyval) seed batch_index batch_size,
    int_field Scenario.unconfigured d "seed" 12345 = OK seed ->
    int_field Scenario.unconfigured d "batch_index" 0 = OK batch_index ->
    int_field Scenario.unconfigured d "batch_size" 10 = OK batch_size ->
    batch_size_in_range batch_size ->
    seed_in_range seed ->
    App.api_generate Scenario.unconfigured (OK (PDict d))
      = (OK (500, App.json_error (str Sample.builtins (KeyError "DATABASE_URL"))), []).
Proof. apply (database_url_is_required Scenario.unconfigured). reflexivity. Defined.

Lemma api_generate_valid_calls (w : App.env) (d : gmap string pyval) seed batch_index batch_size :
  int_field w d "seed" 12345 = OK seed ->
  int_field w d "batch_index" 0 = OK batch_index ->
  int_field w d "batch_size" 10 = OK batch_size ->
  batch_size_in_range batch_size ->
  seed_in_range seed ->
  snd (App.api_generate w (OK (PDict d)))
    = snd (App.generate_users w (locale_field d) seed batch_index batch_size).
Proof.
  intros Hs Hi Hb Hbr Hsr.
  rewrite (api_generate_valid w d seed batch_index batch_size Hs Hi Hb Hbr Hsr).
  destruct (App.generate_users w (locale_field d) seed batch_index batch_size)
    as [[users | e] t]; [| reflexivity].
  destruct (for_each (App.round_coordinates (App.rt w)) users); reflexivity.
Qed.

(** X11: [batch_index] is converted but never range-checked, and
    [locale] is neither converted nor checked: once [seed] and
    [batch_size] are valid and the database gives a cursor, the stored
    procedure is called with the request's [locale] as it came, and with
    [seed], [batch_index] and [batch_size] as integers, whatever the
    integer [batch_index] and whatever JSON value [locale] is. *)
Theorem api_generate_passes_parameters
    (w : App.env) (d : gmap string pyval) (seed batch_index batch_size : Z) (dsn : string) :
  int_field w d "seed" 12345 = OK seed ->
  int_field w d "batch_index" 0 = OK batch_index ->
  int_field w d "batch_size" 10 = OK batch_size ->
  batch_size_in_range batch_size ->
  seed_in_range seed ->
  App.environ w !! "DATABASE_URL" = Some dsn ->
  App.connect w dsn = OK tt ->
  App.cursor w = OK tt ->
  [App.Connect dsn; App.Cursor;
   App.Execute App.generate_fake_users_sql
     [locale_field d; PInt seed; PInt batch_index; PInt batch_size]]
    `prefix_of` snd (App.api_generate w (OK (PDict d))).
Proof.
  intros Hs Hi Hb Hbr Hsr Hurl Hconnect Hcursor.
  rewrite (api_generate_valid_calls w d seed batch_index batch_size Hs Hi Hb Hbr Hsr).
  unfold App.generate_users, App.get_db_connection, App.environ_getitem,
    App.iobind, App.call, App.lift, App.ret.
  rewrite Hurl. simpl. rewrite Hconnect, Hcursor. simpl.
  destruct (App.execute w _ _) as [[] | e1]; simpl; [| by eexists].
  destruct (App.fetchall w _ _) as [rows | e2]; simpl; [| by eexists].
  destruct (App.cursor_close w) as [[] | e3]; simpl; [| by eexists].
  destruct (App.connection_close w) as [[] | e4]; simpl; by eexists.
Qed.

Lemma api_generate_passes_parameters_witness :
  let d : gmap string pyval :=
    <[ "locale" := PList [PStr "xx"] ]> (<[ "batch_index" := PInt (-7) ]> ∅) in
  [App.Connect "postgresql://localhost/fake"; App.Cursor;
   App.Execute App.generate_fake_users_sql
     [locale_field d; PInt 12345; PInt (-7); PInt 10]]
    `prefix_of` snd (App.api_generate (Sample.database Sample.two_rows) (OK (PDict d))).
Proof.
  intros d.
  apply (api_generate_passes_parameters (Sample.database Sample.two_rows) d 12345 (-7) 10
           "postgresql://localhost/fake");
    try reflexivity; [unfold batch_size_in_range; lia | unfold seed_in_range; lia].
Defined.

Lemma rounded_frame (r : runtime) (user user' : gmap string pyval) :
  rounded r user user' ->
  dom user' = dom user /\
  forall k, k <> "latitude" -> k <> "longitude" -> user' !! k = user !! k.
Proof.
  intros (lat & lon & lat' & lon' & Hlat & Hlon & _ & _ & ->). split.
  - rewrite !dom_insert_L.
    assert ("latitude" ∈ dom user) as Hin1 by (apply elem_of_dom; eauto).
    assert ("longitude" ∈ dom user) as Hin2 by (apply elem_of_dom; eauto).
    apply set_eq. intros k. rewrite !elem_of_union, !elem_of_singleton.
    split; [intros [-> | [-> | Hk]]; assumption | auto].
  - intros k Hk1 Hk2. rewrite !lookup_insert_ne by congruence. reflexivity.
Qed.

(** X12: a 200 answer carries the rows of the stored procedure one for
    one: as many users as [fetchall] returned, whatever [batch_size]
    asked for, in the same order, each with the same columns and, but
    for [latitude] and [longitude], the same values. *)
Theorem api_generate_keeps_rows
    (w : App.env) (d : gmap string pyval) (body : pyval) (t : list App.event) :
  App.api_generate w (OK (PDict d)) = (OK (200, body), t) ->
  exists seed batch_index batch_size rows users',
    App.fetchall w App.generate_fake_users_sql
      (procedure_args (locale_field d) seed batch_index batch_size) = OK rows /\
    field body "users" = Some (PList (PDict <$> users')) /\
    length users' = length rows /\
    forall (i : nat) (row : gmap string pyval), rows !! i = Some row ->
      exists row', users' !! i = Some row' /\
        dom row' = dom row /\
        forall k, k <> "latitude" -> k <> "longitude" -> row' !! k = row !! k.
Proof.
  intros Hresp.
  destruct (api_generate_OK w d body t Hresp) as
    (seed & batch_index & batch_size & rows & users' &
     _ & _ & _ & _ & _ & Hgen & Hloop & ->).
  destruct (generate_users_OK _ _ _ _ _ _ _ Hgen) as (dsn & _ & _ & Hfetch).
  exists seed, batch_index, batch_size, rows, users'.
  split; [exact Hfetch |]. split; [simpl; by simplify_map_eq |].
  apply for_each_OK in Hloop.
  split; [symmetry; eapply Forall2_length; exact Hloop |].
  intros i row Hi.
  destruct (Forall2_lookup_l _ _ _ _ _ Hloop Hi) as (row' & Hi' & Hround).
  exists row'. split; [exact Hi' |].
  apply rounded_frame with (r := App.rt w). apply round_coordinates_OK. exact Hround.
Qed.

Lemma api_generate_keeps_rows_witness :
  exists seed batch_index batch_size rows users',
    App.fetchall (Sample.database Sample.two_rows) App.generate_fake_users_sql
      (procedure_args (locale_field (<[ "batch_size" := PInt 1 ]> ∅))
         seed batch_index batch_size) = OK rows /\
    field (App.generated_body (Sample.database Sample.two_rows) Sample.two_rows
             (PStr "en_US") 12345 0 1) "users" = Some (PList (PDict <$> users')) /\
    length users' = length rows /\
    forall (i : nat) (row : gmap string pyval), rows !! i = Some row ->
      exists row', users' !! i = Some row' /\
        dom row' = dom row /\
        forall k, k <> "latitude" -> k <> "longitude" -> row' !! k = row !! k.
Proof.
  apply (api_generate_keeps_rows (Sample.database Sample.two_rows)
           (<[ "batch_size" := PInt 1 ]> ∅) _
           (round_trip "postgresql://localhost/fake" App.generate_fake_users_sql
              [PStr "en_US"; PInt 12345; PInt 0; PInt 1])).
  reflexivity.
Defined.

(** X13: a 200 answer is given after exactly one complete round trip:
    one connection, one cursor, the one call of the stored procedure
    with the request's parameters, one fetch, and both closes; the
    connection is closed before the answer is built. *)
Theorem api_generate_closes_on_success
    (w : App.env) (d : gmap string pyval) (body : pyval) (t : list App.event) :
  App.api_generate w (OK (PDict d)) = (OK (200, body), t) ->
  exists dsn seed batch_index batch_size,
    App.environ w !! "DATABASE_URL" = Some dsn /\
    int_field w d "seed" 12345 = OK seed /\
    int_field w d "batch_index" 0 = OK batch_index /\
    int_field w d "batch_size" 10 = OK batch_size /\
    t = [App.Connect dsn; App.Cursor;
         App.Execute App.generate_fake_users_sql
           [locale_field d; PInt seed; PInt batch_index; PInt batch_size];
         App.Fetchall; App.CursorClose; App.ConnectionClose].
Proof.
  intros Hresp.
  destruct (api_generate_OK w d body t Hresp) as
    (seed & batch_index & batch_size & rows & users' &
     Hs & Hi & Hb & _ & _ & Hgen & _ & _).
  destruct (generate_users_OK _ _ _ _ _ _ _ Hgen) as (dsn & Hurl & -> & _).
  exists dsn, seed, batch_index, batch_size. auto.
Qed.

Lemma api_generate_closes_on_success_witness :
  exists dsn seed batch_index batch_size,
    App.environ (Sample.database Sample.two_rows) !! "DATABASE_URL" = Some dsn /\
    int_field (Sample.database Sample.two_rows) ∅ "seed" 12345 = OK seed /\
    int_field (Sample.database Sample.two_rows) ∅ "batch_index" 0 = OK batch_index /\
    int_field (Sample.database Sample.two_rows) ∅ "batch_size" 10 = OK batch_size /\
    round_trip "postgresql://localhost/fake" App.generate_fake_users_sql
      [PStr "en_US"; PInt 12345; PInt 0; PInt 10]
    = [App.Connect dsn; App.Cursor;
       App.Execute App.generate_fake_users_sql
         [locale_field ∅; PInt seed; PInt batch_index; PInt batch_size];
       App.Fetchall; App.CursorClose; App.ConnectionClose].
Proof.
  apply (api_generate_closes_on_success (Sample.database Sample.two_rows) ∅
           (App.generated_body (Sample.database Sample.two_rows) Sample.two_rows
              (PStr "en_US") 12345 0 10)).
  reflexivity.
Defined.

(** ** What [health] touches *)

(** X14: [health] never fetches a row and never calls the stored
    procedure: the only statement it executes is [SELECT 1], without
    parameters, at most once and on one connection. *)
Theorem health_probe_only (w : App.env) :
  (App.Fetchall ∉ snd (App.health w)) /\
  (forall sql args, App.Execute sql args ∈ snd (App.health w) ->
     sql = "SELECT 1" /\ args = []) /\
  (snd (App.health w) = [] \/
   exists dsn, snd (App.health w)
     `prefix_of` [App.Connect dsn; App.Cursor; App.Execute "SELECT 1" [];
                  App.CursorClose; App.ConnectionClose]).
Proof.
  unfold App.health, App.health_try, App.try_except,
    App.get_db_connection, App.environ_getitem,
    App.iobind, App.call, App.lift, App.ret.
  destruct (App.environ w !! "DATABASE_URL") as [dsn |]; simpl.
  2:{ split; [apply not_elem_of_nil |]. split; [| auto].
      intros sql args H. inversion H. }
  destruct (App.connect w dsn) as [[] | e0], (App.cursor w) as [[] | e1],
    (App.execute w "SELECT 1" []) as [[] | e2],
    (App.cursor_close w) as [[] | e3], (App.connection_close w) as [[] | e4]; simpl;
    (split; [intros H; repeat (apply elem_of_cons in H as [H | H]; [discriminate H |]);
             inversion H |]);
    (split; [intros sql args H;
             repeat (apply elem_of_cons in H as [H | H];
                     [try discriminate H; try (injection H as -> ->; auto) |]);
             inversion H |]);
    right; exists dsn; (by eexists).
Qed.

(** ** What [run_benchmark] returns and does *)

Lemma truediv_OK (count : Z) (elapsed throughput : float) :
  truediv count elapsed = OK throughput -> (elapsed =? 0)%float = false.
Proof.
  unfold truediv. destruct (float_of_int count); simpl; [| discriminate].
  destruct (elapsed =? 0)%float; [discriminate | reflexivity].
Qed.

(** Whenever the loop returns, it has appended one tuple per count. *)
Lemma for_count_OK (w : Benchmark.env) (locale seed : pyval) :
  forall user_counts results s out s',
    Benchmark.for_count w locale seed user_counts results s = (OK out, s') ->
    exists new,
      out = results ++ new /\
      tuple_count <$> new = user_counts /\
      Forall (fun r => truediv (tuple_count r) (tuple_elapsed r) = OK (tuple_throughput r))
        new /\
      Benchmark.clock_reads s' = (Benchmark.clock_reads s + 2 * length user_counts)%nat /\
      Benchmark.log s' = Benchmark.log s ++ concat (pass_events locale seed <$> new).
Proof.
  induction user_counts as [| count rest IH]; intros results s out s' H.
  - injection H as <- <-. exists []. rewrite app_nil_r. simpl.
    split; [reflexivity |]. split; [reflexivity |]. split; [constructor |].
    split; [lia | rewrite app_nil_r; reflexivity].
  - simpl in H. unfold Benchmark.mbind at 1 in H. simpl in H.
    unfold Benchmark.mbind at 1 in H. simpl in H.
    unfold Benchmark.mbind at 1 in H. simpl in H.
    destruct (Benchmark.execute w _ _ _) as [[] | e]; [| discriminate H].
    unfold Benchmark.mbind at 1 in H. simpl in H.
    destruct (Benchmark.commit w _) as [[] | e]; [| discriminate H].
    unfold Benchmark.mbind at 1 in H. simpl in H.
    unfold Benchmark.mbind at 1 in H. unfold Benchmark.lift at 1 in H.
    destruct (truediv count _) as [throughput | e] eqn:Hdiv; [| discriminate H].
    unfold Benchmark.mbind at 1 in H. simpl in H.
    apply IH in H as (new & -> & Hcounts & Hall & Hclock & Hlog).
    simpl in Hclock, Hlog.
    eexists (_ :: new). split; [rewrite <- app_assoc; reflexivity |].
    split; [simpl; unfold tuple_count at 1; simpl; f_equal; exact Hcounts |].
    split; [constructor; [exact Hdiv | exact Hall] |].
    split; [rewrite Hclock; simpl; lia |].
    rewrite Hlog. unfold Benchmark.emit; simpl.
    rewrite <- !app_assoc. reflexivity.
Qed.

Lemma run_benchmark_OK (w : Benchmark.env) (user_counts : list Z) (locale seed : pyval)
    (s : Benchmark.state) (results : list (Z * float * float)) (s' : Benchmark.state) :
  Benchmark.run_benchmark w user_counts locale seed s = (OK results, s') ->
  tuple_count <$> results = user_counts /\
  Forall (fun r => truediv (tuple_count r) (tuple_elapsed r) = OK (tuple_throughput r))
    results /\
  Benchmark.clock_reads s' = (Benchmark.clock_reads s + 2 * length user_counts)%nat /\
  Benchmark.log s' =
    Benchmark.log s
    ++ [Benchmark.Connect (Benchmark.DATABASE_URL w); Benchmark.Cursor]
    ++ concat (pass_events locale seed <$> results)
    ++ [Benchmark.CursorExit; Benchmark.ConnectionExit false].
Proof.
  unfold Benchmark.run_benchmark, Benchmark.with_connection, Benchmark.with_cursor.
  unfold Benchmark.mbind at 1. simpl.
  destruct (Benchmark.connect w _) as [[] | e]; [| discriminate].
  unfold Benchmark.mbind at 1. simpl.
  destruct (Benchmark.cursor w) as [[] | e]; [| discriminate].
  destruct (Benchmark.for_count w locale seed user_counts [] _) as [[out | e] s1] eqn:Hloop;
    [| discriminate].
  simpl. destruct (Benchmark.exit_commit w _) as [[] | e]; [| discriminate].
  simpl. intros [= <- <-].
  apply for_count_OK in Hloop as (new & -> & Hcounts & Hall & Hclock & Hlog).
  simpl in *. repeat split; auto.
  rewrite Hlog. rewrite <- !app_assoc. reflexivity.
Qed.

(** X15: whenever [run_benchmark] returns, and whatever the driver and
    the clock did, it returns one tuple per batch size, in the order of
    the input and with the batch size as first component; each
    throughput is the quotient [count / elapsed], no elapsed time in the
    list is zero, and the clock was read exactly twice per batch
    size. *)
Theorem run_benchmark_returns_one_tuple_per_count
    (w : Benchmark.env) (user_counts : list Z) (locale seed : pyval)
    (s : Benchmark.state) (results : list (Z * float * float)) :
  fst (Benchmark.run_benchmark w user_counts locale seed s) = OK results ->
  tuple_count <$> results = user_counts /\
  length results = length user_counts /\
  Forall (fun r =>
            truediv (tuple_count r) (tuple_elapsed r) = OK (tuple_throughput r) /\
            (tuple_elapsed r =? 0)%float = false) results /\
  Benchmark.clock_reads (snd (Benchmark.run_benchmark w user_counts locale seed s))
    = (Benchmark.clock_reads s + 2 * length user_counts)%nat.
Proof.
  destruct (Benchmark.run_benchmark w user_counts locale seed s) as [r s'] eqn:Hrun.
  simpl. intros ->.
  destruct (run_benchmark_OK _ _ _ _ _ _ _ Hrun) as (Hcounts & Hall & Hclock & _).
  split; [exact Hcounts |].
  split; [rewrite <- Hcounts, length_fmap; reflexivity |].
  split; [| exact Hclock].
  eapply Forall_impl; [exact Hall |]. intros r Hr. split; [exact Hr |].
  exact (truediv_OK _ _ _ Hr).
Qed.

Lemma run_benchmark_returns_one_tuple_per_count_witness :
  let results := [(10000, 0.5%float, 20000%float); (50000, 2%float, 25000%float)] in
  tuple_count <$> results = [10000; 50000] /\
  length results = 2%nat /\
  Forall (fun r =>
            truediv (tuple_count r) (tuple_elapsed r) = OK (tuple_throughput r) /\
            (tuple_elapsed r =? 0)%float = false) results /\
  Benchmark.clock_reads
    (snd (Benchmark.run_benchmark (Sample.bench [100; 100.5; 101; 103]%float)
            [10000; 50000] (PStr "en_US") (PInt 12345) Benchmark.initial))
    = (0 + 2 * 2)%nat.
Proof.
  apply (run_benchmark_returns_one_tuple_per_count
           (Sample.bench [100; 100.5; 101; 103]%float) [10000; 50000]
           (PStr "en_US") (PInt 12345) Benchmark.initial).
  reflexivity.
Defined.

(** X16: whenever [run_benchmark] returns, it has driven the database
    in this order and no other: one connection, one cursor, then for
    each batch size, in order, the announcement, one call of
    [generate_fake_users] with [(locale, seed, count)], one commit and
    the line with the figures of that tuple, and finally the exit of
    the cursor block and the exit of the connection block without a
    pending exception. *)
Theorem run_benchmark_log
    (w : Benchmark.env) (user_counts : list Z) (locale seed : pyval)
    (s : Benchmark.state) (results : list (Z * float * float)) :
  fst (Benchmark.run_benchmark w user_counts locale seed s) = OK results ->
  Benchmark.log (snd (Benchmark.run_benchmark w user_counts locale seed s)) =
    Benchmark.log s
    ++ [Benchmark.Connect (Benchmark.DATABASE_URL w); Benchmark.Cursor]
    ++ concat (pass_events locale seed <$> results)
    ++ [Benchmark.CursorExit; Benchmark.ConnectionExit false].
Proof.
  destruct (Benchmark.run_benchmark w user_counts locale seed s) as [r s'] eqn:Hrun.
  simpl. intros ->.
  destruct (run_benchmark_OK _ _ _ _ _ _ _ Hrun) as (_ & _ & _ & Hlog). exact Hlog.
Qed.

Lemma run_benchmark_log_witness :
  Benchmark.log
    (snd (Benchmark.run_benchmark (Sample.bench [100; 100.5; 101; 103]%float)
            [10000; 50000] (PStr "en_US") (PInt 12345) Benchmark.initial)) =
    Benchmark.log Benchmark.initial
    ++ [Benchmark.Connect (Some "postgresql://localhost/fake"); Benchmark.Cursor]
    ++ concat (pass_events (PStr "en_US") (PInt 12345)
                 <$> [(10000, 0.5%float, 20000%float); (50000, 2%float, 25000%float)])
    ++ [Benchmark.CursorExit; Benchmark.ConnectionExit false].
Proof.
  apply (run_benchmark_log (Sample.bench [100; 100.5; 101; 103]%float) [10000; 50000]
           (PStr "en_US") (PInt 12345) Benchmark.initial).
  reflexivity.
Defined.

(** With a driver that completes, the first pass whose division raises
    ends the loop, after the generation for its batch size was executed
    and committed. *)
Lemma for_count_division_raises (w : Benchmark.env) (locale seed : pyval) (e : exn) :
  (forall h sql args, Benchmark.execute w h sql args = OK tt) ->
  (forall h, Benchmark.commit w h = OK tt) ->
  forall user_counts (i : nat) (count : Z) results s,
    user_counts !! i = Some count ->
    (forall (j : nat) c, (j < i)%nat -> user_counts !! j = Some c ->
       exists q, truediv c (elapsed_time w (Benchmark.clock_reads s + 2 * j)) = OK q) ->
    truediv count (elapsed_time w (Benchmark.clock_reads s + 2 * i)) = Raise e ->
    exists s',
      Benchmark.for_count w locale seed user_counts results s = (Raise e, s') /\
      Benchmark.Execute Benchmark.generate_fake_users_sql [locale; seed; PInt count]
        ∈ Benchmark.log s' /\
      Benchmark.Commit ∈ Benchmark.log s'.
Proof.
  intros Hexecute Hcommit.
  induction user_counts as [| c rest IH]; intros i count results s Hi Hbefore Hdiv;
    [inversion Hi |].
  simpl. unfold Benchmark.mbind at 1. simpl.
  unfold Benchmark.mbind at 1. simpl.
  unfold Benchmark.mbind at 1. simpl. rewrite Hexecute.
  unfold Benchmark.mbind at 1. simpl. rewrite Hcommit.
  unfold Benchmark.mbind at 1. simpl.
  unfold Benchmark.mbind at 1. unfold Benchmark.lift at 1.
  destruct i as [| i]; simpl in Hi.
  - injection Hi as ->. rewrite Nat.add_0_r in Hdiv.
    unfold elapsed_time, end_reading, start_reading in Hdiv. rewrite Hdiv.
    eexists. split; [reflexivity |]. simpl. split.
    + apply elem_of_app. left. apply elem_of_app. right. apply list_elem_of_singleton.
      reflexivity.
    + apply elem_of_app. right. apply list_elem_of_singleton. reflexivity.
  - destruct (Hbefore 0%nat c ltac:(lia) eq_refl) as [q Hq].
    rewrite Nat.add_0_r in Hq.
    unfold elapsed_time, end_reading, start_reading in Hq. rewrite Hq.
    unfold Benchmark.mbind at 1. simpl.
    apply (IH i count); [exact Hi | |]; simpl.
    + intros j c' Hj Hc'. destruct (Hbefore (S j) c' ltac:(lia) Hc') as [q' Hq'].
      exists q'. rewrite <- Hq'. do 2 f_equal. lia.
    + rewrite <- Hdiv. do 2 f_equal. lia.
Qed.

(** X17: when the two clock readings around a call coincide, the
    division [count / elapsed] raises [ZeroDivisionError] and
    [run_benchmark] returns nothing: the tuples of the earlier batch
    sizes are lost, although the generation for the batch size at hand
    was already executed and committed; the connection block is left
    with the exception pending. *)
Theorem run_benchmark_clock_stall
    (w : Benchmark.env) (user_counts : list Z) (locale seed : pyval)
    (s : Benchmark.state) (i : nat) (count : Z) :
  driver_completes w ->
  user_counts !! i = Some count ->
  (forall (j : nat) c, (j < i)%nat -> user_counts !! j = Some c ->
     (exists f, float_of_int c = OK f) /\
     (elapsed_time w (Benchmark.clock_reads s + 2 * j) =? 0)%float = false) ->
  (exists f, float_of_int count = OK f) ->
  (elapsed_time w (Benchmark.clock_reads s + 2 * i) =? 0)%float = true ->
  let run := Benchmark.run_benchmark w user_counts locale seed s in
  fst run = Raise ZeroDivisionError /\
  Benchmark.Execute Benchmark.generate_fake_users_sql [locale; seed; PInt count]
    ∈ Benchmark.log (snd run) /\
  Benchmark.Commit ∈ Benchmark.log (snd run) /\
  last (Benchmark.log (snd run)) = Some (Benchmark.ConnectionExit true).
Proof.
  intros (Hconnect & Hcursor & Hexecute & Hcommit & Hexit) Hi Hbefore [f Hf] Hzero run.
  assert (exists s',
            run = (Raise ZeroDivisionError,
                   Benchmark.emit (Benchmark.ConnectionExit true)
                     (Benchmark.emit Benchmark.CursorExit s')) /\
            Benchmark.Execute Benchmark.generate_fake_users_sql [locale; seed; PInt count]
              ∈ Benchmark.log s' /\
            Benchmark.Commit ∈ Benchmark.log s') as (s' & -> & Hin1 & Hin2).
  { unfold run, Benchmark.run_benchmark, Benchmark.with_connection, Benchmark.with_cursor.
    unfold Benchmark.mbind at 1. simpl. rewrite Hconnect.
    unfold Benchmark.mbind at 1. simpl. rewrite Hcursor.
    destruct (for_count_division_raises w locale seed ZeroDivisionError Hexecute Hcommit
                user_counts i count []
                (Benchmark.emit Benchmark.Cursor
                   (Benchmark.emit (Benchmark.Connect (Benchmark.DATABASE_URL w)) s)) Hi)
      as (s' & -> & Hin1 & Hin2).
    - cbn [Benchmark.clock_reads Benchmark.emit].
      intros j c Hj Hc. destruct (Hbefore j c Hj Hc) as [[fc Hfc] Hnz].
      eexists. unfold truediv. rewrite Hfc. cbn [bind]. rewrite Hnz. reflexivity.
    - cbn [Benchmark.clock_reads Benchmark.emit].
      unfold truediv. rewrite Hf. cbn [bind]. rewrite Hzero. reflexivity.
    - exists s'. auto. }
  simpl. split; [reflexivity |].
  split; [apply elem_of_app; left; apply elem_of_app; left; exact Hin1 |].
  split; [apply elem_of_app; left; apply elem_of_app; left; exact Hin2 |].
  apply last_snoc.
Qed.

Lemma run_benchmark_clock_stall_witness :
  let run := Benchmark.run_benchmark (Sample.bench [100; 100.5; 101; 101]%float)
               [10000; 50000] (PStr "en_US") (PInt 12345) Benchmark.initial in
  fst run = Raise ZeroDivisionError /\
  Benchmark.Execute Benchmark.generate_fake_users_sql [PStr "en_US"; PInt 12345; PInt 50000]
    ∈ Benchmark.log (snd run) /\
  Benchmark.Commit ∈ Benchmark.log (snd run) /\
  last (Benchmark.log (snd run)) = Some (Benchmark.ConnectionExit true).
Proof.
  apply (run_benchmark_clock_stall (Sample.bench [100; 100.5; 101; 101]%float)
           [10000; 50000] (PStr "en_US") (PInt 12345) Benchmark.initial 1 50000).
  - repeat split; reflexivity.
  - reflexivity.
  - intros [| j] c Hj Hc; [| lia]. injection Hc as <-.
    split; [eexists; reflexivity | reflexivity].
  - eexists. reflexivity.
  - reflexivity.
Defined.

(** X18: on the empty list [run_benchmark] still opens a connection and
    a cursor, but executes nothing, prints nothing and does not read the
    clock; it returns the empty list exactly when connecting, opening
    the cursor and the commit on leaving the block all return. *)
Theorem run_benchmark_nothing_to_do
    (w : Benchmark.env) (locale seed : pyval) (s : Benchmark.state) :
  let run := Benchmark.run_benchmark w [] locale seed s in
  let opened :=
    Benchmark.log s ++ [Benchmark.Connect (Benchmark.DATABASE_URL w); Benchmark.Cursor;
                        Benchmark.CursorExit] in
  Benchmark.clock_reads (snd run) = Benchmark.clock_reads s /\
  (exists new, Benchmark.log (snd run) = Benchmark.log s ++ new /\
     forall ev, ev ∈ new ->
       match ev with
       | Benchmark.Execute _ _ | Benchmark.Commit | Benchmark.Print _ => False
       | _ => True
       end) /\
  (fst run = OK [] <->
     Benchmark.connect w (Benchmark.DATABASE_URL w) = OK tt /\
     Benchmark.cursor w = OK tt /\
     Benchmark.exit_commit w opened = OK tt).
Proof.
  unfold Benchmark.run_benchmark, Benchmark.with_connection, Benchmark.with_cursor.
  unfold Benchmark.mbind at 1. simpl.
  destruct (Benchmark.connect w _) as [[] | e0]; simpl.
  2:{ split; [reflexivity |]. split.
      - eexists. split; [reflexivity |]. intros ev Hev.
        apply list_elem_of_singleton in Hev as ->. exact I.
      - split; [discriminate | intros (H & _); discriminate H]. }
  unfold Benchmark.mbind at 1. simpl.
  destruct (Benchmark.cursor w) as [[] | e1]; simpl.
  2:{ split; [reflexivity |]. split.
      - exists [Benchmark.Connect (Benchmark.DATABASE_URL w); Benchmark.Cursor;
                Benchmark.ConnectionExit true].
        split; [rewrite <- !app_assoc; reflexivity |]. intros ev Hev.
        repeat (apply elem_of_cons in Hev as [-> | Hev]; [exact I |]). inversion Hev.
      - split; [discriminate | intros (_ & H & _); discriminate H]. }
  rewrite <- !app_assoc. simpl.
  split; [reflexivity |]. split.
  - exists [Benchmark.Connect (Benchmark.DATABASE_URL w); Benchmark.Cursor;
            Benchmark.CursorExit; Benchmark.ConnectionExit false].
    split; [reflexivity |]. intros ev Hev.
    repeat (apply elem_of_cons in Hev as [-> | Hev]; [exact I |]). inversion Hev.
  - destruct (Benchmark.exit_commit w _) as [[] | e2]; simpl.
    + split; auto.
    + split; [discriminate | intros (_ & _ & H); discriminate H].
Qed.



(** ** The script *)

Lemma reports_app (xs ys : list Benchmark.script_event) :
  reports (xs ++ ys) = reports xs ++ reports ys.
Proof. unfold reports. apply omap_app. Qed.

Lemma reports_During (evs : list Benchmark.event) : reports (Benchmark.During <$> evs) = [].
Proof. induction evs as [| ev evs IH]; [reflexivity | exact IH]. Qed.

Lemma reports_rows (results : list (Z * float * float)) :
  reports (Benchmark.report_rows results)
    = (fun r => Benchmark.Row (tuple_count r) (tuple_elapsed r) (tuple_throughput r))
        <$> results.
Proof.
  induction results as [| r results IH]; [reflexivity |].
  unfold reports, Benchmark.report_rows in *. simpl. f_equal. exact IH.
Qed.

(** X20: the script prints its report only after a complete run: if
    [run_benchmark] raises, the exception ends the script and not even
    the title is printed; otherwise the report is the title, the header
    and one row for each of the five batch sizes 10 000, 50 000,
    100 000, 500 000 and 1 000 000, in this order, each row with the
    figures of the tuple returned for it. *)
Theorem main_report (w : Benchmark.env) :
  match fst (Benchmark.main w) with
  | Raise e =>
      fst (Benchmark.run_benchmark w Benchmark.user_counts (PStr "en_US") (PInt 12345)
             Benchmark.initial) = Raise e /\
      reports (snd (Benchmark.main w)) = []
  | OK _ =>
      exists results,
        fst (Benchmark.run_benchmark w Benchmark.user_counts (PStr "en_US") (PInt 12345)
               Benchmark.initial) = OK results /\
        tuple_count <$> results = [10000; 50000; 100000; 500000; 1000000] /\
        reports (snd (Benchmark.main w))
          = Benchmark.Title :: Benchmark.Header
            :: ((fun r => Benchmark.Row (tuple_count r) (tuple_elapsed r) (tuple_throughput r))
                  <$> results)
  end.
Proof.
  unfold Benchmark.main.
  destruct (Benchmark.run_benchmark w Benchmark.user_counts (PStr "en_US") (PInt 12345)
              Benchmark.initial) as [[results | e] s] eqn:Hrun; cbn [fst snd].
  - exists results. split; [reflexivity |].
    destruct (run_benchmark_OK _ _ _ _ _ _ _ Hrun) as (Hcounts & _).
    split; [exact Hcounts |].
    rewrite !reports_app, reports_During, reports_rows. reflexivity.
  - split; [reflexivity |]. apply reports_During.
Qed.

Example main_on_a_steady_clock :
  reports (snd (Benchmark.main
                  (Sample.bench [0; 1; 1; 3; 3; 7; 7; 15; 15; 31]%float)))
    = [Benchmark.Title; Benchmark.Header;
       Benchmark.Row 10000 1 10000; Benchmark.Row 50000 2 25000;
       Benchmark.Row 100000 4 25000; Benchmark.Row 500000 8 62500;
       Benchmark.Row 1000000 16 62500].
Proof. reflexivity. Qed.
